(** * gpxfixer: fusing two GPX tracks

    A shallow embedding of [src/gpxfixer.py] and the properties of its
    track-fusion pipeline.

    Modelling conventions.
    - A Python [float] / [numpy.float64] that is finite is a real number
      ([R]): arithmetic is exact, [np.sin], [np.cos], [np.sqrt] and
      [np.arctan2] are the real functions.  The non-finite values the
      code can produce ([nan], [inf]) are explicit constructors of
      [float64]; they arise from numpy's division by zero.
    - A [datetime] is its number of microseconds since the epoch ([Z]),
      a [timedelta] a number of microseconds ([Z]).
    - Exceptions are values of [exn]; a computation that can raise has
      type [result A].
    - The BeautifulSoup document is a tree of [node]s.
    - Functions of external libraries whose results depend on text
      formats or on numerical linear algebra ([float()], [dateutil],
      [strftime], [np.polyfit], [str] of a float) are the fields of a
      record [PyLibs] that the embedded functions take as a parameter. *)

From Stdlib Require Import Reals Lra Lia Psatz ZArith List String Ascii Bool.
From Stdlib Require Import DecimalString Epsilon Sorted.
Import ListNotations.

#[local] Open Scope R_scope.

(** ** Exceptions *)

Inductive exn : Set :=
| KeyError
| AttributeError
| TypeError
| ValueError
| IndexError
| ZeroDivisionError
| OverflowError
| LinAlgError.

Definition result (A : Type) : Type := (exn + A)%type.

Definition ret {A : Type} (a : A) : result A := inr a.

Definition raise {A : Type} (e : exn) : result A := inl e.

Definition bind {A B : Type} (m : result A) (k : A -> result B) : result B :=
  match m with
  | inl e => inl e
  | inr a => k a
  end.

Notation "x <- m ;; k" := (bind m (fun x => k))
  (at level 61, m at next level, right associativity).

(** [for x in l: body] over a state [S], where [body] may raise. *)
Definition for_each {A S : Type} (body : S -> A -> result S) : list A -> S -> result S :=
  fix loop (l : list A) (s : S) : result S :=
    match l with
    | [] => ret s
    | a :: l' => s' <- body s a ;; loop l' s'
    end.

(** [[f(x) for x in l]] where [f] may raise. *)
Definition map_result {A B : Type} (f : A -> result B) : list A -> result (list B) :=
  fix loop (l : list A) : result (list B) :=
    match l with
    | [] => ret []
    | a :: l' => b <- f a ;; bs <- loop l' ;; ret (b :: bs)
    end.

(** ** Floating-point values *)

Inductive float64 : Type :=
| Fin (r : R)
| NaN
| Inf (negative : bool).

Definition Rltb (x y : R) : bool := if Rlt_dec x y then true else false.

(** [x / y] on [numpy.float64]: division by zero returns [nan] or an
    infinity (with a RuntimeWarning), it does not raise. *)
Definition np_true_divide (x y : R) : float64 :=
  if Req_dec_T y 0 then
    if Req_dec_T x 0 then NaN else Inf (Rltb x 0)
  else Fin (x / y).

(** [x / y] on Python [float]: division by zero raises. *)
Definition float_truediv (x y : R) : result R :=
  if Req_dec_T y 0 then raise ZeroDivisionError else ret (x / y).

(** [x * y] for a finite [x]. *)
Definition float_mul (x : R) (y : float64) : float64 :=
  match y with
  | Fin r => Fin (x * r)
  | NaN => NaN
  | Inf s => if Req_dec_T x 0 then NaN else Inf (xorb s (Rltb x 0))
  end.

(** Round to the nearest integer, ties to even ([np.rint], and the
    rounding of [round] and of [timedelta]). *)
Definition rint (x : R) : Z :=
  let f := Zfloor x in
  if Rlt_dec (x - IZR f) (1 / 2) then f
  else if Rlt_dec (1 / 2) (x - IZR f) then (f + 1)%Z
  else if Z.even f then f else (f + 1)%Z.

(** [np.arctan2(y, x)]. *)
Definition arctan2 (y x : R) : R :=
  if Rlt_dec 0 x then atan (y / x)
  else if Rlt_dec x 0 then
    if Rlt_dec y 0 then atan (y / x) - PI else atan (y / x) + PI
  else if Rlt_dec 0 y then PI / 2
  else if Rlt_dec y 0 then - (PI / 2)
  else 0.

(** [sum(l)]: Python adds from the left, starting from 0. *)
Definition sum (l : list R) : R := fold_left Rplus l 0.

(** ** Dates and durations *)

(** [timedelta.total_seconds()]. *)
Definition total_seconds_of (td : Z) : R := IZR td / 1000000.

(** [timedelta(seconds=x)]: the duration is rounded to the nearest
    microsecond; [nan] and the infinities are refused. *)
Definition timedelta_seconds (x : float64) : result Z :=
  match x with
  | Fin r => ret (rint (r * 1000000))
  | NaN => raise ValueError
  | Inf _ => raise OverflowError
  end.

(** ** The document tree *)

#[warnings="-register-all"]
Inductive node : Type :=
| Tag (name : string) (attrs : list (string * string)) (contents : list node)
| NavigableString (s : string).

Definition is_Tag (n : node) : bool :=
  match n with
  | Tag _ _ _ => true
  | NavigableString _ => false
  end.

(** [[c for c in l if isinstance(c, Tag)]]. *)
Definition tags (l : list node) : list node := filter is_Tag l.

(** [tag.contents]. *)
Definition contents_of (n : node) : list node :=
  match n with
  | Tag _ _ cs => cs
  | NavigableString _ => []
  end.

(** [tag.name]; a string has none. *)
Definition name_of (n : node) : option string :=
  match n with
  | Tag nm _ _ => Some nm
  | NavigableString _ => None
  end.

(** The first result of [f] along a list. *)
Definition first_some {A B : Type} (f : A -> option B) : list A -> option B :=
  fix go (l : list A) : option B :=
    match l with
    | [] => None
    | a :: l' =>
        match f a with
        | Some b => Some b
        | None => go l'
        end
    end.

(** Rewrite the first element that [f] rewrites. *)
Definition first_update {A : Type} (f : A -> option A) : list A -> option (list A) :=
  fix go (l : list A) : option (list A) :=
    match l with
    | [] => None
    | a :: l' =>
        match f a with
        | Some a' => Some (a' :: l')
        | None => option_map (cons a) (go l')
        end
    end.

(** The first node named [nm] among [n] and its descendants, in
    document order. *)
Fixpoint find_from (nm : string) (n : node) : option node :=
  match n with
  | Tag nm' _ cs =>
      if String.eqb nm' nm then Some n else first_some (find_from nm) cs
  | NavigableString _ => None
  end.

(** [tag.find(nm)], which BeautifulSoup also offers as [tag.nm]: the
    first descendant of that name. *)
Definition find (nm : string) (n : node) : option node :=
  first_some (find_from nm) (contents_of n).

(** [tag.string]: the single string below a chain of only children. *)
Fixpoint string_of (n : node) : option string :=
  match n with
  | NavigableString s => Some s
  | Tag _ _ [c] => string_of c
  | Tag _ _ _ => None
  end.

(** [n] with the first node named [nm] (itself or a descendant)
    replaced by [new]. *)
Fixpoint replace_from (nm : string) (new : node) (n : node) : option node :=
  match n with
  | Tag nm' a cs =>
      if String.eqb nm' nm then Some new
      else option_map (Tag nm' a) (first_update (replace_from nm new) cs)
  | NavigableString _ => None
  end.

(** [tag.nm.replace_with(new)]; [AttributeError] when [tag.nm] is
    [None]. *)
Definition replace_with (nm : string) (new : node) (n : node) : result node :=
  match n with
  | Tag nm' a cs =>
      match first_update (replace_from nm new) cs with
      | Some cs' => ret (Tag nm' a cs')
      | None => raise AttributeError
      end
  | NavigableString _ => raise AttributeError
  end.

(** [tag.append(new)]. *)
Definition append (new : node) (n : node) : node :=
  match n with
  | Tag nm a cs => Tag nm a (cs ++ [new])
  | NavigableString s => NavigableString s
  end.

(** [n] with the contents of its first node named [nm] (itself or a
    descendant) set to the single string [s]. *)
Fixpoint set_string_from (nm : string) (s : string) (n : node) : option node :=
  match n with
  | Tag nm' a cs =>
      if String.eqb nm' nm then Some (Tag nm' a [NavigableString s])
      else option_map (Tag nm' a) (first_update (set_string_from nm s) cs)
  | NavigableString _ => None
  end.

(** [tag.nm.string = s]. *)
Definition set_string (nm : string) (s : string) (n : node) : result node :=
  match n with
  | Tag nm' a cs =>
      match first_update (set_string_from nm s) cs with
      | Some cs' => ret (Tag nm' a cs')
      | None => raise AttributeError
      end
  | NavigableString _ => raise AttributeError
  end.

(** [tag[key]]. *)
Definition get_attr (key : string) (n : node) : result string :=
  match n with
  | Tag _ a _ =>
      match List.find (fun kv => String.eqb (fst kv) key) a with
      | Some kv => ret (snd kv)
      | None => raise KeyError
      end
  | NavigableString _ => raise TypeError
  end.

(** ** External library functions *)

Record PyLibs : Type := {
  (** [float(s)] on a string. *)
  float_of_str : string -> result R;
  (** [dateutil.parser.parse(s)]. *)
  dateutil_parse : string -> result Z;
  (** [d.strftime(fmt)]. *)
  strftime : Z -> string -> string;
  (** [np.polyfit(x, y, deg)]: the coefficients, highest power first. *)
  np_polyfit : list R -> list R -> nat -> result (list R);
  (** [str(v)] for a finite [numpy.float64]. *)
  float64_str : R -> string
}.

(** [float(x)] where [x] may be [None]. *)
Definition py_float (L : PyLibs) (x : option string) : result R :=
  match x with
  | Some s => float_of_str L s
  | None => raise TypeError
  end.

(** [dateutil.parser.parse(x)] where [x] may be [None]. *)
Definition parse_time (L : PyLibs) (x : option string) : result Z :=
  match x with
  | Some s => dateutil_parse L s
  | None => raise TypeError
  end.

(** [str(n)] for an [int]. *)
Definition int_str (n : Z) : string := NilZero.string_of_int (Z.to_int n).

(** [str(v)] for a [numpy.float64]. *)
Definition np_str (L : PyLibs) (v : float64) : string :=
  match v with
  | Fin r => float64_str L r
  | NaN => "nan"%string
  | Inf false => "inf"%string
  | Inf true => "-inf"%string
  end.

(** [np.poly1d(c)(x)]: Horner's scheme [y = y * x + c_i] from [y = 0].
    With four coefficients the first product is [0 * x], which is
    [nan] when [x] is not finite. *)
Definition horner (c : list R) (x : R) : R :=
  fold_left (fun y pv => y * x + pv) c 0.

Definition poly1d (c : list R) (x : float64) : float64 :=
  match x with
  | Fin r => Fin (horner c r)
  | _ => match c with [] => Fin 0 | _ => NaN end
  end.

(** [round(v, 1)] on a [numpy.float64]. *)
Definition round1 (v : float64) : float64 :=
  match v with
  | Fin r => Fin (IZR (rint (r * 10)) / 10)
  | _ => v
  end.

(** [int(round(v))] on a [numpy.float64]. *)
Definition int_round (v : float64) : result Z :=
  match v with
  | Fin r => ret (rint r)
  | NaN => raise ValueError
  | Inf _ => raise OverflowError
  end.

(** [s[:4]] and [s[4:]]. *)
Definition upto4 (s : string) : string := substring 0 4 s.
Definition from4 (s : string) : string := substring 4 (String.length s - 4) s.

(** ** class TrackPoint *)

Module TrackPoint.

Definition MIN_RATE : R := 1.5.

Record t : Type := Build {
  pt : node;
  lat : R;
  lon : R;
  time : Z;
  ele : R;
  elapsed : Z;
  nelapsed : R;
  distance : R;
  accumulated_distance : R;
  ndistance : float64;
  since_last : R;
  extensions : list node
}.

Definition with_pt (v : node) (p : t) : t :=
  Build v (lat p) (lon p) (time p) (ele p) (elapsed p) (nelapsed p) (distance p)
    (accumulated_distance p) (ndistance p) (since_last p) (extensions p).

Definition with_time (v : Z) (p : t) : t :=
  Build (pt p) (lat p) (lon p) v (ele p) (elapsed p) (nelapsed p) (distance p)
    (accumulated_distance p) (ndistance p) (since_last p) (extensions p).

Definition with_elapsed (v : Z) (p : t) : t :=
  Build (pt p) (lat p) (lon p) (time p) (ele p) v (nelapsed p) (distance p)
    (accumulated_distance p) (ndistance p) (since_last p) (extensions p).

Definition with_nelapsed (v : R) (p : t) : t :=
  Build (pt p) (lat p) (lon p) (time p) (ele p) (elapsed p) v (distance p)
    (accumulated_distance p) (ndistance p) (since_last p) (extensions p).

Definition with_distance (v : R) (p : t) : t :=
  Build (pt p) (lat p) (lon p) (time p) (ele p) (elapsed p) (nelapsed p) v
    (accumulated_distance p) (ndistance p) (since_last p) (extensions p).

Definition with_accumulated_distance (v : R) (p : t) : t :=
  Build (pt p) (lat p) (lon p) (time p) (ele p) (elapsed p) (nelapsed p) (distance p)
    v (ndistance p) (since_last p) (extensions p).

Definition with_ndistance (v : float64) (p : t) : t :=
  Build (pt p) (lat p) (lon p) (time p) (ele p) (elapsed p) (nelapsed p) (distance p)
    (accumulated_distance p) v (since_last p) (extensions p).

Definition with_since_last (v : R) (p : t) : t :=
  Build (pt p) (lat p) (lon p) (time p) (ele p) (elapsed p) (nelapsed p) (distance p)
    (accumulated_distance p) (ndistance p) v (extensions p).

(** Lines 30-40: the channel elements of the point, [[]] when the
    lookup raises. *)
Definition parse_extensions (pt : node) : list node :=
  match find "extensions" pt with
  | None => []
  | Some e =>
      match tags (contents_of e) with
      | [] => []
      | g :: _ => tags (contents_of g)
      end
  end.

(** [__init__(self, pt)]. *)
Definition init (L : PyLibs) (pt : node) : result t :=
  lat_s <- get_attr "lat" pt ;;
  lat <- float_of_str L lat_s ;;
  lon_s <- get_attr "lon" pt ;;
  lon <- float_of_str L lon_s ;;
  time_tag <- match find "time" pt with Some e => ret e | None => raise AttributeError end ;;
  time <- parse_time L (string_of time_tag) ;;
  ele_tag <- match find "ele" pt with Some e => ret e | None => raise AttributeError end ;;
  ele <- py_float L (string_of ele_tag) ;;
  ret (Build pt lat lon time ele 0%Z 0 0 0 (Fin 0) 0 (parse_extensions pt)).

(** [adjust_time(self, origin, last, total_seconds)]. *)
Definition adjust_time (self origin last : t) (total_seconds : R) : result t :=
  let self := with_elapsed (time self - time origin)%Z self in
  n <- float_truediv (total_seconds_of (elapsed self)) total_seconds ;;
  let self := with_nelapsed n self in
  ret (with_since_last (total_seconds_of (time self - time last)%Z) self).

(** The haversine term [a] and the distance of [adjust_distance]. *)
Definition haversine_a (lat1 lon1 lat2 lon2 : R) : R :=
  let theta1 := lat1 * PI / 180 in
  let theta2 := lat2 * PI / 180 in
  let delta_theta := (lat2 - lat1) * PI / 180 in
  let delta_lambda := (lon2 - lon1) * PI / 180 in
  sin (delta_theta / 2) * sin (delta_theta / 2)
  + cos theta1 * cos theta2 * sin (delta_lambda / 2) * sin (delta_lambda / 2).

(** [adjust_distance(self, last)]. *)
Definition adjust_distance (self last : t) : t :=
  let R_earth := 6371e3 in
  let a := haversine_a (lat last) (lon last) (lat self) (lon self) in
  let c := 2 * arctan2 (sqrt a) (sqrt (1 - a)) in
  let d := R_earth * c in
  with_distance d self.

(** [set_ndistance(self, last, total_distance)]. *)
Definition set_ndistance (self last : t) (total_distance : R) : t :=
  let self := with_accumulated_distance (distance self + accumulated_distance last) self in
  with_ndistance (np_true_divide (accumulated_distance self) total_distance) self.

(** One entry of the [values] dictionary: [{"x": [...], "y": [...]}]. *)
Record samples : Type := Samples { xs : list R; ys : list R }.

(** A dictionary keyed by strings, in insertion order. *)
Definition dict (V : Type) : Type := list (string * V).

Definition lookup {V : Type} (k : string) (d : dict V) : option V :=
  option_map snd (List.find (fun kv => String.eqb (fst kv) k) d).

(** [d[k] = f(d[k])] for a key that is present. *)
Fixpoint update {V : Type} (k : string) (f : V -> V) (d : dict V) : dict V :=
  match d with
  | [] => []
  | (k', v) :: d' =>
      if String.eqb k' k then (k', f v) :: d' else (k', v) :: update k f d'
  end.

(** [d[k] = v] for a key that is absent. *)
Definition insert_new {V : Type} (k : string) (v : V) (d : dict V) : dict V :=
  d ++ [(k, v)].

(** The body of the loop of [append_fit_values], for one channel
    element [ext]. *)
Definition append_fit_value (L : PyLibs) (self : t) (values : dict samples) (ext : node)
  : result (dict samples) :=
  match name_of ext with
  | None => raise AttributeError
  | Some nm =>
      let values :=
        match lookup nm values with
        | None => insert_new nm (Samples [] []) values
        | Some _ => values
        end in
      let values := update nm (fun s => Samples (xs s ++ [nelapsed self]) (ys s)) values in
      y <- py_float L (string_of ext) ;;
      ret (update nm (fun s => Samples (xs s) (ys s ++ [y])) values)
  end.

(** [append_fit_values(self, values)]. *)
Definition append_fit_values (L : PyLibs) (self : t) (values : dict samples)
  : result (dict samples) :=
  for_each (append_fit_value L self) (extensions self) values.

(** The body of the loop of [add_extensions] for one channel: the new
    element, named and filled. *)
Definition new_ext (L : PyLibs) (self : t) (ext : string) (poly : list R) : result node :=
  let new_value := poly1d poly (ndistance self) in
  let ext := if negb (String.eqb (upto4 ext) "ns3:") then ("ns3:" ++ ext)%string else ext in
  text <-
    (if String.eqb (from4 ext) "atemp" then ret (np_str L (round1 new_value))
     else n <- int_round new_value ;; ret (int_str n)) ;;
  ret (Tag ext [] [NavigableString text]).

(** [add_extensions(self, soup, polyfit)]. *)
Definition add_extensions (L : PyLibs) (self : t) (polyfit : dict (list R)) : result t :=
  children <- map_result (fun kv => new_ext L self (fst kv) (snd kv)) polyfit ;;
  let new_track_point_extensions := Tag "ns3:TrackPointExtension" [] children in
  let new_extensions := Tag "extensions" [] [new_track_point_extensions] in
  match replace_with "extensions" new_extensions (pt self) with
  | inr pt' => ret (with_pt pt' self)
  | inl _ => ret (with_pt (append new_extensions (pt self)) self)
  end.

(** [fix_time(self, origin_time, total_seconds)]. *)
Definition fix_time (L : PyLibs) (self : t) (origin_time : Z) (total_seconds : R) : result t :=
  let nelapsed := float_mul total_seconds (ndistance self) in
  td <- timedelta_seconds nelapsed ;;
  let self := with_time (origin_time + td)%Z self in
  let ms := substring 0 3 (strftime L (time self) "%f") in
  let time_string := strftime L (time self) "%Y-%m-%dT%H:%M:%S" in
  pt' <- set_string "time" (time_string ++ "." ++ ms ++ "Z")%string (pt self) ;;
  ret (with_pt pt' self).

(** [calc_still_time(self)]; [rate] is its local variable. *)
Definition rate (self : t) : R :=
  if Rlt_dec 0 (since_last self) then distance self / since_last self else 0.

Definition calc_still_time (self : t) : R :=
  if Rlt_dec (rate self) MIN_RATE then since_last self else 0.

End TrackPoint.

(** ** class GpxFile *)

Module GpxFile.

Record t : Type := Build {
  (** [soup.trk.trkseg.children] as loaded. *)
  children : list node;
  pts : list TrackPoint.t;
  total_seconds : R;
  total_distance : R;
  values : TrackPoint.dict TrackPoint.samples;
  polyfit : TrackPoint.dict (list R);
  total_still_time : R
}.

Definition with_pts (v : list TrackPoint.t) (g : t) : t :=
  Build (children g) v (total_seconds g) (total_distance g) (values g) (polyfit g)
    (total_still_time g).

(** Lines 118-120: [pt.adjust_distance(self.pts[i])] and
    [pt.adjust_time(self.origin, self.pts[i], self.total_seconds)] for
    the points after the first; [last] is [self.pts[i]]. *)
Fixpoint adjust_loop (origin last : TrackPoint.t) (total_seconds : R)
  (rest : list TrackPoint.t) : result (list TrackPoint.t) :=
  match rest with
  | [] => ret []
  | p :: rest' =>
      let p := TrackPoint.adjust_distance p last in
      p <- TrackPoint.adjust_time p origin last total_seconds ;;
      rest'' <- adjust_loop origin p total_seconds rest' ;;
      ret (p :: rest'')
  end.

(** Lines 122-123: [pt.set_ndistance(self.pts[i], self.total_distance)]
    for the points after the first; [last] is [self.pts[i]], already
    updated by the previous iteration. *)
Fixpoint ndistance_loop (last : TrackPoint.t) (total_distance : R)
  (rest : list TrackPoint.t) : list TrackPoint.t :=
  match rest with
  | [] => []
  | p :: rest' =>
      let p := TrackPoint.set_ndistance p last total_distance in
      p :: ndistance_loop p total_distance rest'
  end.

(** Lines 125-127: the [values] dictionary. *)
Definition collect_values (L : PyLibs) (pts : list TrackPoint.t)
  : result (TrackPoint.dict TrackPoint.samples) :=
  for_each (fun values p => TrackPoint.append_fit_values L p values) pts [].

(** Lines 129-132: one degree-3 fit per entry of [values]. *)
Definition make_polyfit (L : PyLibs) (values : TrackPoint.dict TrackPoint.samples)
  : result (TrackPoint.dict (list R)) :=
  map_result
    (fun kv =>
       pfit <- np_polyfit L (TrackPoint.xs (snd kv)) (TrackPoint.ys (snd kv)) 3 ;;
       ret (fst kv, pfit))
    values.

(** Lines 116-123: total duration, distances and time fractions, total
    distance, accumulated distances and position fractions. *)
Definition normalize (pts : list TrackPoint.t) : result (list TrackPoint.t * R * R) :=
  match pts with
  | [] => raise IndexError
  | origin :: rest =>
      let final := last rest origin in
      let total_seconds :=
        total_seconds_of (TrackPoint.time final - TrackPoint.time origin)%Z in
      rest <- adjust_loop origin origin total_seconds rest ;;
      let total_distance := sum (map TrackPoint.distance (origin :: rest)) in
      ret (origin :: ndistance_loop origin total_distance rest,
           total_seconds, total_distance)
  end.

(** Lines 116-134, from the list of points on. *)
Definition init_pts (L : PyLibs) (children : list node) (pts : list TrackPoint.t)
  : result t :=
  n <- normalize pts ;;
  let '(pts, total_seconds, total_distance) := n in
  values <- collect_values L pts ;;
  polyfit <- make_polyfit L values ;;
  let total_still_time := sum (map TrackPoint.calc_still_time pts) in
  ret (Build children pts total_seconds total_distance values polyfit
         total_still_time).

(** [__init__(self, filename)], from the children of the track segment
    on. *)
Definition init (L : PyLibs) (children : list node) : result t :=
  pts <- map_result (TrackPoint.init L) (tags children) ;;
  init_pts L children pts.

(** [add_extensions(self, original)]. *)
Definition add_extensions (L : PyLibs) (self original : t) : result t :=
  pts <- map_result (fun p => TrackPoint.add_extensions L p (polyfit original)) (pts self) ;;
  ret (with_pts pts self).

(** [start_time(self)]. *)
Definition start_time (self : t) : result Z :=
  match pts self with
  | p :: _ => ret (TrackPoint.time p)
  | [] => raise IndexError
  end.

(** [fix_time(self, original)], for [original] an object other than
    [self]. *)
Definition fix_time (L : PyLibs) (self original : t) : result t :=
  pts <- map_result
           (fun p =>
              origin_time <- start_time original ;;
              TrackPoint.fix_time L p origin_time
                (total_seconds original - total_still_time original))
           (pts self) ;;
  ret (with_pts pts self).

(** The children of the track segment now: the point elements are the
    [pt] of the points, in order, between the strings that were loaded. *)
Fixpoint rebuild (children : list node) (pts : list node) : list node :=
  match children with
  | [] => []
  | c :: cs =>
      if is_Tag c then
        match pts with
        | p :: ps => p :: rebuild cs ps
        | [] => c :: rebuild cs []
        end
      else c :: rebuild cs pts
  end.

Definition trkseg (self : t) : list node :=
  rebuild (children self) (map TrackPoint.pt (pts self)).

(** [replace_gps(self, replacement)]: the track segment of the
    document afterwards. *)
Definition replace_gps (self replacement : t) : list node := trkseg replacement.

End GpxFile.

(** [main()]: the track segment of the printed document. *)
Definition main (L : PyLibs) (gpx replace : list node) : result (list node) :=
  original <- GpxFile.init L gpx ;;
  replacement <- GpxFile.init L replace ;;
  replacement <- GpxFile.add_extensions L replacement original ;;
  replacement <- GpxFile.fix_time L replacement original ;;
  ret (GpxFile.replace_gps original replacement).

(** ** Reference library functions

    An instance of [PyLibs] for running the embedding on concrete
    documents.  It covers the text formats of GPX files: numbers in
    plain decimal notation, UTC timestamps written
    [YYYY-MM-DDTHH:MM:SSZ], and the two formats [fix_time] prints. *)

Module Ref.

Definition digit_of (c : ascii) : option Z :=
  let n := nat_of_ascii c in
  if ((48 <=? n)%nat && (n <=? 57)%nat)%bool then Some (Z.of_nat (n - 48)) else None.

(** Digits with at most one point: the digits read as one integer, and
    the power of ten the point divides it by. *)
Fixpoint scan_decimal (s : string) (num : Z) (ndigits : nat) (scale : option Z)
  : option (Z * Z) :=
  match s with
  | EmptyString =>
      if (ndigits =? 0)%nat then None
      else Some (num, match scale with Some k => k | None => 1%Z end)
  | String c s' =>
      match digit_of c with
      | Some d =>
          scan_decimal s' (10 * num + d)%Z (S ndigits)
            (option_map (Z.mul 10) scale)
      | None =>
          if Ascii.eqb c "." then
            match scale with
            | None => scan_decimal s' num ndigits (Some 1%Z)
            | Some _ => None
            end
          else None
      end
  end.

(** A decimal numeral as a fraction. *)
Definition parse_decimal (s : string) : option (Z * Z) :=
  match s with
  | String "-" s' =>
      option_map (fun p => (- fst p, snd p)%Z) (scan_decimal s' 0 0 None)
  | _ => scan_decimal s 0 0 None
  end.

Definition float_of_str (s : string) : result R :=
  match parse_decimal s with
  | Some (n, d) => ret (IZR n / IZR d)
  | None => raise ValueError
  end.

(** Days from 1970-01-01 to the day [y]-[m]-[d] of the proleptic
    Gregorian calendar, and back. *)
Definition days_from_civil (y m d : Z) : Z :=
  let y := if (m <=? 2)%Z then (y - 1)%Z else y in
  let era := (y / 400)%Z in
  let yoe := (y - era * 400)%Z in
  let mp := ((m + 9) mod 12)%Z in
  let doy := ((153 * mp + 2) / 5 + d - 1)%Z in
  let doe := (yoe * 365 + yoe / 4 - yoe / 100 + doy)%Z in
  (era * 146097 + doe - 719468)%Z.

Definition civil_from_days (z : Z) : Z * Z * Z :=
  let z := (z + 719468)%Z in
  let era := (z / 146097)%Z in
  let doe := (z - era * 146097)%Z in
  let yoe := ((doe - doe / 1460 + doe / 36524 - doe / 146096) / 365)%Z in
  let doy := (doe - (365 * yoe + yoe / 4 - yoe / 100))%Z in
  let mp := ((5 * doy + 2) / 153)%Z in
  let d := (doy - (153 * mp + 2) / 5 + 1)%Z in
  let m := if (mp <? 10)%Z then (mp + 3)%Z else (mp - 9)%Z in
  let y := (yoe + era * 400)%Z in
  (if (m <=? 2)%Z then (y + 1)%Z else y, m, d).

Definition number_at (start len : nat) (s : string) : option Z :=
  option_map fst (scan_decimal (substring start len s) 0 0 (Some 1%Z)).

Definition sep_at (i : nat) (c : string) (s : string) : bool :=
  String.eqb (substring i 1 s) c.

Definition dateutil_parse (s : string) : result Z :=
  match number_at 0 4 s, number_at 5 2 s, number_at 8 2 s,
        number_at 11 2 s, number_at 14 2 s, number_at 17 2 s with
  | Some y, Some m, Some d, Some hh, Some mm, Some ss =>
      if ((String.length s =? 20)%nat && sep_at 4 "-" s && sep_at 7 "-" s
          && sep_at 10 "T" s && sep_at 13 ":" s && sep_at 16 ":" s
          && sep_at 19 "Z" s)%bool
      then ret ((((days_from_civil y m d * 24 + hh) * 60 + mm) * 60 + ss) * 1000000)%Z
      else raise ValueError
  | _, _, _, _, _, _ => raise ValueError
  end.

(** A non-negative integer in at least [width] digits. *)
Definition pad (width : nat) (n : Z) : string :=
  let s := NilZero.string_of_int (Z.to_int n) in
  (string_of_list_ascii (repeat "0"%char (width - String.length s)) ++ s)%string.

Definition strftime (t : Z) (fmt : string) : string :=
  let us := (t mod 1000000)%Z in
  let secs := (t / 1000000)%Z in
  let '(y, m, d) := civil_from_days (secs / 86400) in
  let sod := (secs mod 86400)%Z in
  if String.eqb fmt "%f" then pad 6 us
  else if String.eqb fmt "%Y-%m-%dT%H:%M:%S" then
    (pad 4 y ++ "-" ++ pad 2 m ++ "-" ++ pad 2 d ++ "T" ++ pad 2 (sod / 3600)
     ++ ":" ++ pad 2 (sod / 60 mod 60) ++ ":" ++ pad 2 (sod mod 60))%string
  else fmt.

(** The sum of the squared residuals of the polynomial [c] on the
    samples. *)
Definition residual (xs ys c : list R) : R :=
  sum (map (fun xy => (horner c (fst xy) - snd xy) * (horner c (fst xy) - snd xy))
         (combine xs ys)).

(** [c] has [deg + 1] coefficients and no such polynomial fits the
    samples better. *)
Definition least_squares (xs ys : list R) (deg : nat) (c : list R) : Prop :=
  List.length c = S deg /\
  forall c', List.length c' = S deg -> residual xs ys c <= residual xs ys c'.

(** Some such coefficients. *)
Definition best_fit (xs ys : list R) (deg : nat) : list R :=
  epsilon (inhabits []) (least_squares xs ys deg).

(** [np.polyfit] refuses an empty [x] and samples of different lengths;
    a matrix of deficient rank is only warned about. *)
Definition np_polyfit (xs ys : list R) (deg : nat) : result (list R) :=
  match xs with
  | [] => raise TypeError
  | _ :: _ =>
      if (List.length xs =? List.length ys)%nat
      then ret (best_fit xs ys deg)
      else raise TypeError
  end.

(** A number of tenths, printed with one decimal. *)
Definition float64_str (r : R) : string :=
  let k := rint (r * 10) in
  ((if (k <? 0)%Z then "-" else "")
   ++ NilZero.string_of_int (Z.to_int (Z.abs k / 10))
   ++ "." ++ NilZero.string_of_int (Z.to_int (Z.abs k mod 10)))%string.

Definition libs : PyLibs :=
  Build_PyLibs float_of_str dateutil_parse strftime np_polyfit float64_str.

End Ref.

(** ** Definitions used to state the properties *)

(** The distance [adjust_distance] stores, as a function of the two
    coordinates. *)
Definition great_circle (lat1 lon1 lat2 lon2 : R) : R :=
  let a := TrackPoint.haversine_a lat1 lon1 lat2 lon2 in
  6371e3 * (2 * arctan2 (sqrt a) (sqrt (1 - a))).

(** A property of every pair of neighbours of a list that starts after
    [first]. *)
Fixpoint linked {A : Type} (P : A -> A -> Prop) (first : A) (l : list A) : Prop :=
  match l with
  | [] => True
  | a :: l' => P first a /\ linked P a l'
  end.

(** The fields a fresh [TrackPoint] starts with. *)
Definition fresh (p : TrackPoint.t) : Prop :=
  TrackPoint.elapsed p = 0%Z /\ TrackPoint.nelapsed p = 0 /\
  TrackPoint.distance p = 0 /\ TrackPoint.accumulated_distance p = 0 /\
  TrackPoint.ndistance p = Fin 0 /\ TrackPoint.since_last p = 0.

(** The fields the loops of [GpxFile.__init__] leave alone. *)
Definition same_point (p p' : TrackPoint.t) : Prop :=
  TrackPoint.pt p' = TrackPoint.pt p /\ TrackPoint.lat p' = TrackPoint.lat p /\
  TrackPoint.lon p' = TrackPoint.lon p /\ TrackPoint.time p' = TrackPoint.time p /\
  TrackPoint.ele p' = TrackPoint.ele p /\
  TrackPoint.extensions p' = TrackPoint.extensions p.


(** The fields [set_ndistance] leaves alone. *)
Definition same_motion (p p' : TrackPoint.t) : Prop :=
  same_point p p' /\ TrackPoint.elapsed p' = TrackPoint.elapsed p /\
  TrackPoint.nelapsed p' = TrackPoint.nelapsed p /\
  TrackPoint.distance p' = TrackPoint.distance p /\
  TrackPoint.since_last p' = TrackPoint.since_last p.

(** What [adjust_distance] and [adjust_time] store in a point [b] whose
    predecessor is [a]. *)
Definition adjusted (a b : TrackPoint.t) : Prop :=
  TrackPoint.distance b =
    great_circle (TrackPoint.lat a) (TrackPoint.lon a) (TrackPoint.lat b) (TrackPoint.lon b) /\
  TrackPoint.since_last b = total_seconds_of (TrackPoint.time b - TrackPoint.time a)%Z.

(** What [set_ndistance] stores in a point [b] whose predecessor is [a]. *)
Definition accumulated (total_distance : R) (a b : TrackPoint.t) : Prop :=
  TrackPoint.accumulated_distance b =
    TrackPoint.distance b + TrackPoint.accumulated_distance a /\
  TrackPoint.ndistance b =
    np_true_divide (TrackPoint.accumulated_distance b) total_distance.

(** What [adjust_time] stores in a point [p] of a track that starts at
    [origin] and lasts [ts] seconds. *)
Definition timed (origin : TrackPoint.t) (ts : R) (p : TrackPoint.t) : Prop :=
  TrackPoint.elapsed p = (TrackPoint.time p - TrackPoint.time origin)%Z /\
  TrackPoint.nelapsed p =
    total_seconds_of (TrackPoint.time p - TrackPoint.time origin)%Z / ts.

(** The state of the points after lines 116-123. *)
Definition normal (pts : list TrackPoint.t) (ts td : R) : Prop :=
  exists origin out,
    pts = origin :: out /\
    fresh origin /\
    linked adjusted origin out /\
    linked (accumulated td) origin out /\
    Forall (timed origin ts) out /\
    td = sum (map TrackPoint.distance out) /\
    ts = total_seconds_of
           (TrackPoint.time (last out origin) - TrackPoint.time origin)%Z /\
    (out <> [] -> ts <> 0).

(** The stationary time of one interval in the words of the
    specification: the rate is distance over duration, 0 when the
    duration is 0, and the whole duration counts when the rate is below
    1.5 m/s. *)
Definition spec_rate (distance duration : R) : R :=
  if Req_dec_T duration 0 then 0 else distance / duration.

Definition spec_stationary (distance duration : R) : R :=
  if Rlt_dec (spec_rate distance duration) 1.5 then duration else 0.

(** The pairs of neighbouring points of a track. *)
Definition intervals (pts : list TrackPoint.t) : list (TrackPoint.t * TrackPoint.t) :=
  combine pts (tl pts).

(** Distance and duration of an interval, from the coordinates and
    timestamps of its two points. *)
Definition interval_distance (ab : TrackPoint.t * TrackPoint.t) : R :=
  great_circle (TrackPoint.lat (fst ab)) (TrackPoint.lon (fst ab))
    (TrackPoint.lat (snd ab)) (TrackPoint.lon (snd ab)).

Definition interval_duration (ab : TrackPoint.t * TrackPoint.t) : R :=
  total_seconds_of (TrackPoint.time (snd ab) - TrackPoint.time (fst ab))%Z.

(** The channel element that synthesis writes for the channel [ext]
    with the polynomial [poly] at the position fraction [f], in the
    words of the specification: the name gets the prefix [ns3:] unless
    it has it; the value of a temperature channel ([atemp] after the
    prefix) is rounded to one decimal, any other to the nearest
    integer. *)
Definition prefixed (ext : string) : string :=
  if String.eqb (upto4 ext) "ns3:" then ext else ("ns3:" ++ ext)%string.

Definition is_temperature (ext : string) : bool :=
  String.eqb (from4 (prefixed ext)) "atemp".

Definition synthesized_text (L : PyLibs) (ext : string) (v : R) : string :=
  if is_temperature ext then float64_str L (IZR (rint (v * 10)) / 10)
  else int_str (rint v).

Definition synthesized (L : PyLibs) (f : R) (kv : string * list R) : node :=
  Tag (prefixed (fst kv)) []
    [NavigableString (synthesized_text L (fst kv) (horner (snd kv) f))].

(** The element [add_extensions] builds around the channel elements. *)
Definition wrapper (channels : list node) : node :=
  Tag "extensions" [] [Tag "ns3:TrackPointExtension" [] channels].

(** The point element after [add_extensions]: [new] in the place of
    the first [extensions] element, or at the end where there is none. *)
Definition replaced_or_appended (new pt : node) : node :=
  match replace_with "extensions" new pt with
  | inr pt' => pt'
  | inl _ => append new pt
  end.

(** The text [fix_time] writes for the instant [t]. *)
Definition timestamp_text (L : PyLibs) (t : Z) : string :=
  (strftime L t "%Y-%m-%dT%H:%M:%S" ++ "." ++ substring 0 3 (strftime L t "%f") ++ "Z")%string.

(** The channel elements named [nm] that a point carries. *)
Definition carries (nm : string) (e : node) : bool :=
  match name_of e with
  | Some n => String.eqb n nm
  | None => false
  end.

Definition channel_elements (nm : string) (p : TrackPoint.t) : list node :=
  filter (carries nm) (TrackPoint.extensions p).

(** Along a track, for every element of the channel [nm]: the element,
    the time fraction of its point, and the position fraction of its
    point. *)
Definition channel_raw (nm : string) (pts : list TrackPoint.t) : list node :=
  flat_map (channel_elements nm) pts.

Definition channel_time_fractions (nm : string) (pts : list TrackPoint.t) : list R :=
  flat_map (fun p => map (fun _ => TrackPoint.nelapsed p) (channel_elements nm p)) pts.

Definition channel_position_fractions (nm : string) (pts : list TrackPoint.t)
  : list float64 :=
  flat_map (fun p => map (fun _ => TrackPoint.ndistance p) (channel_elements nm p)) pts.

(** The samples [append_fit_values] has seen, in order: the abscissa
    and the element. *)
Definition events_of (p : TrackPoint.t) : list (R * node) :=
  map (fun e => (TrackPoint.nelapsed p, e)) (TrackPoint.extensions p).

(** What the [values] dictionary holds once the samples [events] have
    been appended. *)
Definition collected (L : PyLibs) (events : list (R * node))
  (values : TrackPoint.dict TrackPoint.samples) : Prop :=
  forall nm,
    match TrackPoint.lookup nm values with
    | None => filter (fun ev => carries nm (snd ev)) events = []
    | Some s =>
        TrackPoint.xs s = map fst (filter (fun ev => carries nm (snd ev)) events) /\
        Forall2 (fun e y => py_float L (string_of e) = inr y)
          (map snd (filter (fun ev => carries nm (snd ev)) events)) (TrackPoint.ys s)
    end.

(** An entry of [values] that [np.polyfit] accepts: as many abscissae
    as ordinates, and at least one. *)
Definition balanced (s : TrackPoint.samples) : Prop :=
  List.length (TrackPoint.xs s) = List.length (TrackPoint.ys s) /\
  TrackPoint.xs s <> [].

(** The keys of a dictionary, in insertion order. *)
Definition keys {V : Type} (d : TrackPoint.dict V) : list string := map fst d.

(** Two children of a track segment that agree but for what is below a
    point element: the same string, or two elements with the same name
    and the same attributes. *)
Definition same_shell (c c' : node) : Prop :=
  match c, c' with
  | NavigableString s, NavigableString s' => s = s'
  | Tag nm a _, Tag nm' a' _ => nm = nm' /\ a = a'
  | _, _ => False
  end.

(** ** Example documents *)

Module Example.

Definition channel (name value : string) : node :=
  Tag name [] [NavigableString value].

(** A point element without extensions. *)
Definition bare (lat lon ele time : string) : node :=
  Tag "trkpt" [("lat", lat); ("lon", lon)]%string
    [Tag "ele" [] [NavigableString ele]; Tag "time" [] [NavigableString time]].

(** A point element with the channels [chans]. *)
Definition trkpt (lat lon ele time : string) (chans : list node) : node :=
  Tag "trkpt" [("lat", lat); ("lon", lon)]%string
    [Tag "ele" [] [NavigableString ele]; Tag "time" [] [NavigableString time];
     Tag "extensions" [] [Tag "ns3:TrackPointExtension" [] chans]].

(** The point [TrackPoint.__init__] builds from the element [pt] once
    its numbers are read. *)
Definition parsed (pt : node) (lat lon : R) (time : Z) (ele : R) : TrackPoint.t :=
  TrackPoint.Build pt lat lon time ele 0 0 0 0 (Fin 0) 0 (TrackPoint.parse_extensions pt).

(** Ten seconds at rest, then about 111 m in ten seconds; a heart rate
    on each of the three points. *)
Definition paused0 : node :=
  trkpt "0" "0" "10" "2020-01-01T00:00:00Z" [channel "ns3:hr" "100"].
Definition paused1 : node :=
  trkpt "0" "0" "10" "2020-01-01T00:00:10Z" [channel "ns3:hr" "110"].
Definition paused2 : node :=
  trkpt "0" "0.001" "10" "2020-01-01T00:00:20Z" [channel "ns3:hr" "120"].

Definition paused : list node := [paused0; paused1; paused2].

Definition t0 : Z := 1577836800000000.

Definition paused_parsed : list TrackPoint.t :=
  [parsed paused0 0 0 t0 10;
   parsed paused1 0 0 (t0 + 10000000) 10;
   parsed paused2 0 (1 / 1000) (t0 + 20000000) 10].

Definition paused_pts : list TrackPoint.t :=
  [TrackPoint.Build paused0 0 0 t0 10 0 0 0 0 (Fin 0) 0 [channel "ns3:hr" "100"];
   TrackPoint.Build paused1 0 0 (t0 + 10000000) 10 10000000 (1 / 2) 0 0 (Fin 0) 10
     [channel "ns3:hr" "110"];
   TrackPoint.Build paused2 0 (1 / 1000) (t0 + 20000000) 10 20000000 1
     (6371 * PI / 180) (6371 * PI / 180) (Fin 1) 10 [channel "ns3:hr" "120"]].

Definition paused_values : TrackPoint.dict TrackPoint.samples :=
  [("ns3:hr"%string, TrackPoint.Samples [0; 1 / 2; 1] [100; 110; 120])].

Definition paused_polyfit : TrackPoint.dict (list R) :=
  [("ns3:hr"%string, Ref.best_fit [0; 1 / 2; 1] [100; 110; 120] 3)].

Definition paused_file : GpxFile.t :=
  GpxFile.Build paused paused_pts 20 (6371 * PI / 180) paused_values paused_polyfit 10.

(** Two points at the same place, ten seconds apart. *)
Definition standstill0 : node := bare "45.5" "-122.5" "10" "2020-01-01T00:00:00Z".
Definition standstill1 : node := bare "45.5" "-122.5" "10" "2020-01-01T00:00:10Z".

Definition standstill : list node := [standstill0; standstill1].

Definition standstill_parsed : list TrackPoint.t :=
  [parsed standstill0 (91 / 2) (-245 / 2) t0 10;
   parsed standstill1 (91 / 2) (-245 / 2) (t0 + 10000000) 10].

Definition standstill_pts : list TrackPoint.t :=
  [TrackPoint.Build standstill0 (91 / 2) (-245 / 2) t0 10 0 0 0 0 (Fin 0) 0 [];
   TrackPoint.Build standstill1 (91 / 2) (-245 / 2) (t0 + 10000000) 10 10000000 1 0 0
     NaN 10 []].

Definition standstill_file : GpxFile.t :=
  GpxFile.Build standstill standstill_pts 10 0 [] [] 10.



(** One point. *)
Definition single : list node := [standstill0].

Definition single_pts : list TrackPoint.t := [parsed standstill0 (91 / 2) (-245 / 2) t0 10].

Definition single_file : GpxFile.t := GpxFile.Build single single_pts 0 0 [] [] 0.

(** Three points without channels, about 111 m and 222 m apart. *)
Definition reference0 : node := bare "0" "0" "12" "2021-06-01T08:00:00Z".
Definition reference1 : node := bare "0" "0.001" "12" "2021-06-01T08:00:30Z".
Definition reference2 : node := bare "0" "0.003" "12" "2021-06-01T08:01:30Z".

Definition reference : list node :=
  [NavigableString " "; reference0; NavigableString " "; reference1;
   NavigableString " "; reference2; NavigableString " "].

Definition t1 : Z := 1622534400000000.

Definition reference_parsed : list TrackPoint.t :=
  [parsed reference0 0 0 t1 12;
   parsed reference1 0 (1 / 1000) (t1 + 30000000) 12;
   parsed reference2 0 (3 / 1000) (t1 + 90000000) 12].

Definition reference_pts : list TrackPoint.t :=
  [TrackPoint.Build reference0 0 0 t1 12 0 0 0 0 (Fin 0) 0 [];
   TrackPoint.Build reference1 0 (1 / 1000) (t1 + 30000000) 12 30000000 (1 / 3)
     (6371 * PI / 180) (6371 * PI / 180) (Fin (1 / 3)) 30 [];
   TrackPoint.Build reference2 0 (3 / 1000) (t1 + 90000000) 12 90000000 1
     (2 * (6371 * PI / 180)) (3 * (6371 * PI / 180)) (Fin 1) 60 []].

Definition reference_file : GpxFile.t :=
  GpxFile.Build reference reference_pts 90 (3 * (6371 * PI / 180)) [] [] 0.

(** [main] on [paused] as the source and [reference] as the replacement:
    the effective moving duration is 20 s - 10 s, so the reference points,
    at the position fractions 0, 1/3 and 1, get the source's first
    timestamp plus 0 s, 3.333333 s and 10 s. *)

Definition hr_fit : list R := Ref.best_fit [0; 1 / 2; 1] [100; 110; 120] 3.

Definition hr_text (f : R) : string := int_str (rint (horner hr_fit f)).

Definition fused_pt (lat lon ele time : string) (f : R) : node :=
  trkpt lat lon ele time [channel "ns3:hr" (hr_text f)].

Definition with_pts_times (nodes : list node) (times : list Z) (g : GpxFile.t)
  : GpxFile.t :=
  GpxFile.with_pts
    (map (fun x => TrackPoint.with_pt (fst (fst x))
                     (TrackPoint.with_time (snd (fst x)) (snd x)))
       (combine (combine nodes times) (GpxFile.pts g))) g.

Definition reference_extended : GpxFile.t :=
  with_pts_times
    [fused_pt "0" "0" "12" "2021-06-01T08:00:00Z" 0;
     fused_pt "0" "0.001" "12" "2021-06-01T08:00:30Z" (1 / 3);
     fused_pt "0" "0.003" "12" "2021-06-01T08:01:30Z" 1]
    [t1; (t1 + 30000000)%Z; (t1 + 90000000)%Z] reference_file.

Definition fused0 : node := fused_pt "0" "0" "12" "2020-01-01T00:00:00.000Z" 0.
Definition fused1 : node := fused_pt "0" "0.001" "12" "2020-01-01T00:00:03.333Z" (1 / 3).
Definition fused2 : node := fused_pt "0" "0.003" "12" "2020-01-01T00:00:10.000Z" 1.

Definition reference_fused : GpxFile.t :=
  with_pts_times [fused0; fused1; fused2]
    [t0; (t0 + 3333333)%Z; (t0 + 10000000)%Z] reference_file.

Definition fused : list node :=
  [NavigableString " "; fused0; NavigableString " "; fused1;
   NavigableString " "; fused2; NavigableString " "].

(** [main] on [paused] as the source and [single] as the replacement. *)

Definition single_extended : GpxFile.t :=
  with_pts_times [fused_pt "45.5" "-122.5" "10" "2020-01-01T00:00:00Z" 0] [t0]
    single_file.

Definition fused_single : list node :=
  [fused_pt "45.5" "-122.5" "10" "2020-01-01T00:00:00.000Z" 0].

Definition single_fused : GpxFile.t := with_pts_times fused_single [t0] single_file.

(** A fitted mapping with a heart rate and a temperature channel. *)
Definition sample_polyfit : TrackPoint.dict (list R) :=
  [("ns3:hr"%string, [0; 0; 30; 100]); ("atemp"%string, [0; 0; 3; 20])].

(** The second point of [reference], normalized. *)
Definition sample_point : TrackPoint.t :=
  TrackPoint.Build reference1 0 (1 / 1000) (t1 + 30000000) 12 30000000 (1 / 3)
    (6371 * PI / 180) (6371 * PI / 180) (Fin (1 / 3)) 30 [].


(** The point of [single] after synthesis, and after [fix_time] from
    the instant [t0] with 10 seconds to distribute. *)
Definition synthesized_point : TrackPoint.t :=
  TrackPoint.with_pt (fused_pt "45.5" "-122.5" "10" "2020-01-01T00:00:00Z" 0)
    (parsed standstill0 (91 / 2) (-245 / 2) t0 10).

Definition stamped_point : TrackPoint.t :=
  TrackPoint.with_pt (fused_pt "45.5" "-122.5" "10" "2020-01-01T00:00:00.000Z" 0)
    (TrackPoint.with_time t0 synthesized_point).



(** A point element without attributes, after the points of [paused]. *)
Definition malformed : list node := paused ++ [Tag "trkpt" [] []].

End Example.

(** * Properties *)

(** ** The error monad *)

Lemma bind_inr {A B : Type} (m : result A) (k : A -> result B) (b : B) :
  bind m k = inr b -> exists a, m = inr a /\ k a = inr b.
Proof.
  destruct m as [e | a]; simpl; intros H; [discriminate | eauto].
Qed.

Lemma bind_inl {A B : Type} (m : result A) (k : A -> result B) (e : exn) :
  bind m k = inl e -> m = inl e \/ exists a, m = inr a /\ k a = inl e.
Proof.
  destruct m as [e' | a]; simpl; intros H; [left; congruence | right; eauto].
Qed.

Ltac inv_bind H :=
  let a := fresh "a" in
  let Ha := fresh "Ha" in
  apply bind_inr in H; destruct H as (a & Ha & H).

Lemma map_result_length {A B : Type} (f : A -> result B) (l : list A) (l' : list B) :
  map_result f l = inr l' -> List.length l' = List.length l.
Proof.
  revert l'; induction l as [| a l IH]; simpl; intros l' H.
  - injection H as <-; reflexivity.
  - inv_bind H. inv_bind H. injection H as <-. simpl. f_equal. eauto.
Qed.

Lemma map_result_Forall2 {A B : Type} (f : A -> result B) (l : list A) (l' : list B) :
  map_result f l = inr l' -> Forall2 (fun a b => f a = inr b) l l'.
Proof.
  revert l'; induction l as [| a l IH]; simpl; intros l' H.
  - injection H as <-; constructor.
  - inv_bind H. inv_bind H. injection H as <-. constructor; auto.
Qed.

Lemma Forall2_map_result {A B : Type} (f : A -> result B) (l : list A) (l' : list B) :
  Forall2 (fun a b => f a = inr b) l l' -> map_result f l = inr l'.
Proof.
  induction 1 as [| a b l l' Hab _ IH]; simpl; [reflexivity |].
  rewrite Hab; simpl. rewrite IH; reflexivity.
Qed.

(** ** Rounding *)




Lemma rint_near (z : Z) (x : R) : - (1 / 2) < x - IZR z < 1 / 2 -> rint x = z.
Proof.
  intros [Hlo Hhi]. unfold rint.
  destruct (Rle_dec (IZR z) x) as [Hge | Hlt].
  - rewrite (Zfloor_eq z x) by lra.
    destruct (Rlt_dec (x - IZR z) (1 / 2)); [reflexivity | lra].
  - assert (Hf : Zfloor x = (z - 1)%Z).
    { apply Zfloor_eq. rewrite minus_IZR. lra. }
    rewrite Hf, minus_IZR.
    destruct (Rlt_dec (x - (IZR z - 1)) (1 / 2)); [lra |].
    destruct (Rlt_dec (1 / 2) (x - (IZR z - 1))); [lia | lra].
Qed.

(** ** The great-circle distance *)

Lemma atan_nonneg (t : R) : 0 <= t -> 0 <= atan t.
Proof.
  intros [Ht | <-].
  - left. rewrite <- atan_0. apply atan_increasing; exact Ht.
  - rewrite atan_0; lra.
Qed.

Lemma arctan2_nonneg (y x : R) : 0 <= y -> 0 <= arctan2 y x.
Proof.
  intros Hy. unfold arctan2. pose proof PI_RGT_0 as Hpi.
  destruct (Rlt_dec 0 x) as [Hx | Hx].
  - apply atan_nonneg. apply Rle_mult_inv_pos; assumption.
  - destruct (Rlt_dec x 0) as [Hx' | Hx'].
    + destruct (Rlt_dec y 0) as [Hy' | _]; [lra |].
      pose proof (atan_bound (y / x)). lra.
    + destruct (Rlt_dec 0 y); [lra |].
      destruct (Rlt_dec y 0); lra.
Qed.

Lemma great_circle_nonneg (lat1 lon1 lat2 lon2 : R) :
  0 <= great_circle lat1 lon1 lat2 lon2.
Proof.
  unfold great_circle.
  pose proof (arctan2_nonneg (sqrt (TrackPoint.haversine_a lat1 lon1 lat2 lon2))
                (sqrt (1 - TrackPoint.haversine_a lat1 lon1 lat2 lon2))
                (sqrt_pos _)).
  lra.
Qed.



Lemma adjust_distance_eq (self last : TrackPoint.t) :
  TrackPoint.adjust_distance self last =
  TrackPoint.with_distance
    (great_circle (TrackPoint.lat last) (TrackPoint.lon last)
       (TrackPoint.lat self) (TrackPoint.lon self)) self.
Proof. reflexivity. Qed.

Lemma great_circle_same (lat1 lon1 : R) : great_circle lat1 lon1 lat1 lon1 = 0.
Proof.
  unfold great_circle, TrackPoint.haversine_a.
  replace ((lat1 - lat1) * PI / 180 / 2) with 0 by field.
  replace ((lon1 - lon1) * PI / 180 / 2) with 0 by field.
  rewrite sin_0.
  replace (0 * 0 + cos (lat1 * PI / 180) * cos (lat1 * PI / 180) * 0 * 0) with 0 by ring.
  rewrite Rminus_0_r, sqrt_0, sqrt_1.
  unfold arctan2.
  destruct (Rlt_dec 0 1) as [_ | H]; [| lra].
  replace (0 / 1) with 0 by field. rewrite atan_0. ring.
Qed.

(** ** Sums and neighbours *)

Lemma fold_left_Rplus (l : list R) (a : R) :
  fold_left Rplus l a = a + fold_left Rplus l 0.
Proof.
  revert a; induction l as [| x l IH]; simpl; intros a; [lra |].
  rewrite (IH (a + x)), (IH (0 + x)). lra.
Qed.

Lemma sum_nil : sum [] = 0.
Proof. reflexivity. Qed.

Lemma sum_cons (x : R) (l : list R) : sum (x :: l) = x + sum l.
Proof. unfold sum; simpl. rewrite fold_left_Rplus. lra. Qed.

Lemma sum_nonneg (l : list R) : Forall (fun x => 0 <= x) l -> 0 <= sum l.
Proof.
  induction 1 as [| x l Hx _ IH]; [rewrite sum_nil | rewrite sum_cons]; lra.
Qed.

Lemma linked_impl {A : Type} (P Q : A -> A -> Prop) (a : A) (l : list A) :
  (forall x y, P x y -> Q x y) -> linked P a l -> linked Q a l.
Proof.
  intros HPQ. revert a; induction l as [| b l IH]; simpl; intros a; [trivial |].
  intros [H1 H2]; split; auto.
Qed.

Lemma linked_and {A : Type} (P Q : A -> A -> Prop) (a : A) (l : list A) :
  linked P a l -> linked Q a l -> linked (fun x y => P x y /\ Q x y) a l.
Proof.
  revert a; induction l as [| b l IH]; simpl; intros a; [trivial |].
  intros [H1 H2] [H3 H4]; auto.
Qed.


(** ** The loops of [GpxFile.__init__] *)

Lemma same_point_refl (p : TrackPoint.t) : same_point p p.
Proof. repeat split. Qed.

Lemma adjust_loop_spec (origin : TrackPoint.t) (ts : R) (rest : list TrackPoint.t) :
  forall (last : TrackPoint.t) (rest' : list TrackPoint.t),
    GpxFile.adjust_loop origin last ts rest = inr rest' ->
    Forall2 same_point rest rest' /\
    Forall2 (fun p p' =>
               TrackPoint.accumulated_distance p' = TrackPoint.accumulated_distance p /\
               TrackPoint.ndistance p' = TrackPoint.ndistance p) rest rest' /\
    Forall (fun p' =>
              TrackPoint.elapsed p' = (TrackPoint.time p' - TrackPoint.time origin)%Z /\
              TrackPoint.nelapsed p' =
                total_seconds_of (TrackPoint.time p' - TrackPoint.time origin)%Z / ts) rest' /\
    linked adjusted last rest' /\
    (rest <> [] -> ts <> 0).
Proof.
  induction rest as [| p rest IH]; intros last rest' H; simpl in H.
  - injection H as <-. repeat split; try constructor. intros Hne; contradiction.
  - inv_bind H. inv_bind H. injection H as <-.
    unfold TrackPoint.adjust_time in Ha. inv_bind Ha. injection Ha as <-.
    unfold float_truediv in Ha1.
    destruct (Req_dec_T ts 0) as [Hz | Hnz]; [discriminate |].
    injection Ha1 as <-.
    destruct (IH _ _ Ha0) as (H1 & H2 & H3 & H4 & _).
    repeat split; try (constructor; [| assumption]);
      try (repeat split; reflexivity); auto.
Qed.

Lemma adjust_loop_ok (origin : TrackPoint.t) (ts : R) (rest : list TrackPoint.t) :
  ts <> 0 ->
  forall last, exists rest', GpxFile.adjust_loop origin last ts rest = inr rest'.
Proof.
  intros Hts. induction rest as [| p rest IH]; intros last; simpl.
  - eexists; reflexivity.
  - unfold TrackPoint.adjust_time, float_truediv.
    destruct (Req_dec_T ts 0) as [Hz | _]; [contradiction |]. simpl.
    match goal with
    | |- context [GpxFile.adjust_loop origin ?q ts rest] => destruct (IH q) as [r Hr]
    end.
    rewrite Hr. simpl. eexists; reflexivity.
Qed.


Lemma ndistance_loop_spec (td : R) (rest : list TrackPoint.t) :
  forall last : TrackPoint.t,
    Forall2 same_motion rest (GpxFile.ndistance_loop last td rest) /\
    linked (accumulated td) last (GpxFile.ndistance_loop last td rest).
Proof.
  induction rest as [| p rest IH]; intros last; simpl.
  - split; constructor.
  - match goal with
    | |- context [GpxFile.ndistance_loop ?q td rest] => destruct (IH q) as [H1 H2]
    end.
    split.
    + constructor; [repeat split | exact H1].
    + split; [split; reflexivity | exact H2].
Qed.

(** ** Construction *)

Lemma TrackPoint_init_fresh (L : PyLibs) (pt : node) (p : TrackPoint.t) :
  TrackPoint.init L pt = inr p ->
  fresh p /\ TrackPoint.pt p = pt /\
  TrackPoint.extensions p = TrackPoint.parse_extensions pt.
Proof.
  unfold TrackPoint.init. intros H.
  do 8 inv_bind H. injection H as <-. repeat split.
Qed.

Lemma normalize_structure (pts0 pts1 : list TrackPoint.t) (ts td : R) :
  GpxFile.normalize pts0 = inr (pts1, ts, td) ->
  exists origin rest0 rest1,
    pts0 = origin :: rest0 /\
    ts = total_seconds_of
           (TrackPoint.time (last rest0 origin) - TrackPoint.time origin)%Z /\
    GpxFile.adjust_loop origin origin ts rest0 = inr rest1 /\
    td = sum (map TrackPoint.distance (origin :: rest1)) /\
    pts1 = origin :: GpxFile.ndistance_loop origin td rest1.
Proof.
  unfold GpxFile.normalize. destruct pts0 as [| origin rest0]; [discriminate |].
  intros H. inv_bind H. injection H as <- <- <-.
  exists origin, rest0, a. repeat split; auto.
Qed.

Lemma init_structure (L : PyLibs) (children : list node) (g : GpxFile.t) :
  GpxFile.init L children = inr g ->
  exists pts0,
    map_result (TrackPoint.init L) (tags children) = inr pts0 /\
    GpxFile.normalize pts0 =
      inr (GpxFile.pts g, GpxFile.total_seconds g, GpxFile.total_distance g) /\
    GpxFile.collect_values L (GpxFile.pts g) = inr (GpxFile.values g) /\
    GpxFile.make_polyfit L (GpxFile.values g) = inr (GpxFile.polyfit g) /\
    GpxFile.total_still_time g =
      sum (map TrackPoint.calc_still_time (GpxFile.pts g)) /\
    GpxFile.children g = children.
Proof.
  unfold GpxFile.init, GpxFile.init_pts. intros H.
  inv_bind H. inv_bind H. destruct a0 as [[pts1 ts] td].
  inv_bind H. inv_bind H. injection H as <-. simpl.
  exists a. repeat split; auto.
Qed.

Lemma linked_adjusted_nonneg (a : TrackPoint.t) (l : list TrackPoint.t) :
  linked adjusted a l -> Forall (fun p => 0 <= TrackPoint.distance p) l.
Proof.
  revert a; induction l as [| b l IH]; simpl; intros a; [constructor |].
  intros [[Hd _] Hl]. constructor; [| eauto].
  rewrite Hd. apply great_circle_nonneg.
Qed.

Lemma same_motion_distances (l l' : list TrackPoint.t) :
  Forall2 same_motion l l' ->
  map TrackPoint.distance l' = map TrackPoint.distance l.
Proof.
  induction 1 as [| p p' l l' Hp _ IH]; simpl; [reflexivity |].
  destruct Hp as (_ & _ & _ & Hd & _). rewrite Hd, IH. reflexivity.
Qed.

Lemma last_cons_indep {A : Type} (c : A) (l : list A) (a b : A) :
  last (c :: l) a = last (c :: l) b.
Proof.
  revert c; induction l as [| x l IH]; intros c; [reflexivity |].
  change (last (x :: l) a = last (x :: l) b). apply IH.
Qed.

Lemma last_cons {A : Type} (b : A) (l : list A) (a : A) :
  last (b :: l) a = last l b.
Proof.
  destruct l as [| c l]; [reflexivity |].
  change (last (c :: l) a = last (c :: l) b). apply last_cons_indep.
Qed.

Lemma last_map {A B : Type} (f : A -> B) (l : list A) (a : A) :
  last (map f l) (f a) = f (last l a).
Proof.
  induction l as [| x l IH]; [reflexivity |].
  destruct l as [| y l]; [reflexivity |]. exact IH.
Qed.

Lemma accumulated_last (td : R) (a : TrackPoint.t) (l : list TrackPoint.t) :
  linked (accumulated td) a l ->
  TrackPoint.accumulated_distance (last l a) =
  TrackPoint.accumulated_distance a + sum (map TrackPoint.distance l).
Proof.
  revert a; induction l as [| b l IH]; intros a.
  - intros _. simpl. rewrite sum_nil. lra.
  - intros [[Hb _] Hl]. specialize (IH b Hl).
    rewrite last_cons. simpl map. rewrite sum_cons, IH, Hb. lra.
Qed.

Lemma linked_adjusted_transfer (l l' : list TrackPoint.t) :
  Forall2 same_motion l l' ->
  forall a a',
    TrackPoint.lat a' = TrackPoint.lat a -> TrackPoint.lon a' = TrackPoint.lon a ->
    TrackPoint.time a' = TrackPoint.time a ->
    linked adjusted a l -> linked adjusted a' l'.
Proof.
  induction 1 as [| b b' l l' Hb _ IH]; intros a a' Hlat Hlon Htime; simpl; [trivial |].
  intros [[Hd Hs] Hl].
  destruct Hb as ((_ & Hlat' & Hlon' & Htime' & _) & _ & _ & Hd' & Hs').
  split.
  - split; congruence.
  - apply (IH b b'); auto.
Qed.

Lemma timed_transfer (origin : TrackPoint.t) (ts : R) (l l' : list TrackPoint.t) :
  Forall2 same_motion l l' -> Forall (timed origin ts) l -> Forall (timed origin ts) l'.
Proof.
  induction 1 as [| b b' l l' Hb _ IH]; intros Hl; [constructor |].
  inversion Hl as [| x y [He Hn] Hl']; subst.
  destruct Hb as ((_ & _ & _ & Htime & _) & He' & Hn' & _).
  constructor; [| auto].
  split; congruence.
Qed.

Lemma same_motion_last (l l' : list TrackPoint.t) (a : TrackPoint.t) :
  Forall2 same_motion l l' ->
  TrackPoint.time (last l' a) = TrackPoint.time (last l a).
Proof.
  intros H. revert a. induction H as [| b b' l l' Hb H IH]; intros a; [reflexivity |].
  rewrite !last_cons.
  destruct Hb as ((_ & _ & _ & Htime & _) & _).
  destruct H as [| c c' l l' Hc Hl]; [simpl; exact Htime |].
  rewrite (last_cons_indep c' l' b' a), (last_cons_indep c l b a). apply IH.
Qed.

Lemma same_point_last (l l' : list TrackPoint.t) (a : TrackPoint.t) :
  Forall2 same_point l l' ->
  TrackPoint.time (last l' a) = TrackPoint.time (last l a).
Proof.
  intros H. revert a. induction H as [| b b' l l' Hb H IH]; intros a; [reflexivity |].
  rewrite !last_cons.
  destruct Hb as (_ & _ & _ & Htime & _).
  destruct H as [| c c' l l' Hc Hl]; [simpl; exact Htime |].
  rewrite (last_cons_indep c' l' b' a), (last_cons_indep c l b a). apply IH.
Qed.

Lemma Forall2_same_point_motion (l l' l'' : list TrackPoint.t) :
  Forall2 same_point l l' -> Forall2 same_motion l' l'' -> Forall2 same_point l l''.
Proof.
  intros H. revert l''. induction H as [| b b' l l' Hb _ IH]; intros l'' H2;
    inversion H2 as [| x b'' y l3 Hm H3]; subst; constructor; [| auto].
  destruct Hb as (? & ? & ? & ? & ? & ?).
  destruct Hm as ((? & ? & ? & ? & ? & ?) & _).
  repeat split; congruence.
Qed.

(** [normalize] establishes [normal] on fresh points and leaves what was
    parsed alone. *)
Lemma normalize_normal (pts0 pts1 : list TrackPoint.t) (ts td : R) :
  Forall fresh pts0 ->
  GpxFile.normalize pts0 = inr (pts1, ts, td) ->
  normal pts1 ts td /\ Forall2 same_point pts0 pts1.
Proof.
  intros Hfresh H.
  destruct (normalize_structure _ _ _ _ H)
    as (origin & rest0 & rest1 & -> & Hts & Hadj & Htd & ->).
  inversion Hfresh as [| x y Horigin _]; subst x y.
  destruct (adjust_loop_spec _ _ _ _ _ Hadj) as (Hsame & _ & Htimed & Hlinked & Hne).
  destruct (ndistance_loop_spec td rest1 origin) as [Hmotion Hacc].
  split.
  - exists origin, (GpxFile.ndistance_loop origin td rest1).
    split; [reflexivity |]. split; [exact Horigin |].
    split; [eapply linked_adjusted_transfer; eauto |].
    split; [exact Hacc |].
    split; [eapply timed_transfer; eauto |].
    split.
    { rewrite (same_motion_distances _ _ Hmotion), Htd.
      simpl map. rewrite sum_cons.
      destruct Horigin as (_ & _ & Hd & _). rewrite Hd. lra. }
    split.
    { rewrite (same_motion_last _ _ origin Hmotion),
        (same_point_last _ _ origin Hsame). exact Hts. }
    intros Hout. apply Hne. intros ->.
    inversion Hsame; subst. apply Hout. reflexivity.
  - constructor; [apply same_point_refl |].
    eapply Forall2_same_point_motion; eauto.
Qed.

Lemma parsed_points (L : PyLibs) (l : list node) (pts0 : list TrackPoint.t) :
  map_result (TrackPoint.init L) l = inr pts0 ->
  Forall fresh pts0 /\ map TrackPoint.pt pts0 = l /\
  Forall (fun p => TrackPoint.extensions p =
                   TrackPoint.parse_extensions (TrackPoint.pt p)) pts0.
Proof.
  intros H. apply map_result_Forall2 in H.
  induction H as [| c p l pts0 Hp _ (IH1 & IH2 & IH3)].
  - repeat split; constructor.
  - destruct (TrackPoint_init_fresh _ _ _ Hp) as (Hf & Hpt & Hext).
    repeat split; try constructor; auto.
    + simpl. congruence.
    + congruence.
Qed.

(** What holds of a constructed [GpxFile]. *)
Lemma init_normal (L : PyLibs) (children : list node) (g : GpxFile.t) :
  GpxFile.init L children = inr g ->
  normal (GpxFile.pts g) (GpxFile.total_seconds g) (GpxFile.total_distance g) /\
  map TrackPoint.pt (GpxFile.pts g) = tags children /\
  Forall (fun p => TrackPoint.extensions p =
                   TrackPoint.parse_extensions (TrackPoint.pt p)) (GpxFile.pts g).
Proof.
  intros H. destruct (init_structure _ _ _ H) as (pts0 & Hparse & Hnorm & _).
  destruct (parsed_points _ _ _ Hparse) as (Hfresh & Hpt & Hext).
  destruct (normalize_normal _ _ _ _ Hfresh Hnorm) as [Hn Hsame].
  split; [exact Hn |].
  clear - Hsame Hpt Hext. revert Hpt Hext. generalize (tags children) as l.
  induction Hsame as [| p p' l0 l1 Hp _ IH]; intros l Hpt Hext.
  - split; [exact Hpt | constructor].
  - destruct l as [| c l]; [discriminate |]. simpl in Hpt. injection Hpt as Hc Hl.
    inversion Hext as [| x y Hx Hy]; subst x y.
    destruct (IH l Hl Hy) as [IH1 IH2].
    destruct Hp as (Hp1 & _ & _ & _ & _ & Hp6).
    split.
    + simpl. rewrite Hp1, IH1. congruence.
    + constructor; [congruence | exact IH2].
Qed.

(** ** Position fractions *)

Lemma np_true_divide_ok (x y : R) : y <> 0 -> np_true_divide x y = Fin (x / y).
Proof.
  intros Hy. unfold np_true_divide.
  destruct (Req_dec_T y 0); [contradiction | reflexivity].
Qed.

Lemma np_true_divide_nan : np_true_divide 0 0 = NaN.
Proof.
  unfold np_true_divide.
  destruct (Req_dec_T 0 0) as [_ | H]; [reflexivity | contradiction].
Qed.

Lemma linked_Forall {A : Type} (P : A -> A -> Prop) (Q : A -> Prop) (a : A) (l : list A) :
  linked P a l -> Forall Q l -> linked (fun x y => P x y /\ Q y) a l.
Proof.
  revert a; induction l as [| b l IH]; simpl; intros a; [trivial |].
  intros [H1 H2] H. inversion H; subst. auto.
Qed.

Lemma linked_Forall_snd {A : Type} (Q : A -> Prop) (a : A) (l : list A) :
  linked (fun _ y => Q y) a l -> Forall Q l.
Proof.
  revert a; induction l as [| b l IH]; simpl; intros a; [constructor |].
  intros [H1 H2]. constructor; eauto.
Qed.


(** The last point has accumulated the total distance. *)
Lemma normal_accumulated_last (pts : list TrackPoint.t) (ts td : R) :
  normal pts ts td ->
  last (map TrackPoint.accumulated_distance pts) 0 = td.
Proof.
  intros (origin & out & -> & Hf & _ & Hacc & _ & Htd & _).
  destruct Hf as (_ & _ & _ & H0 & _).
  rewrite <- H0 at 1. rewrite last_map, last_cons.
  rewrite (accumulated_last _ _ _ Hacc), H0, <- Htd. lra.
Qed.




(** ** Distances along the equator *)

Lemma PI_gt_3 : 3 < PI.
Proof. pose proof PI2_3_2. lra. Qed.

Lemma great_circle_equator (lat1 lon1 lat2 lon2 : R) :
  lat1 = 0 -> lat2 = 0 -> 0 <= lon2 - lon1 < 180 ->
  great_circle lat1 lon1 lat2 lon2 = 6371e3 * ((lon2 - lon1) * PI / 180).
Proof.
  intros -> -> [Hlo Hhi].
  pose proof PI_RGT_0 as Hpi.
  unfold great_circle, TrackPoint.haversine_a.
  set (x := (lon2 - lon1) * PI / 180 / 2).
  assert (Hx : 0 <= x < PI / 2).
  { unfold x. split.
    - apply Rmult_le_pos; [| lra]. apply Rmult_le_pos; [| lra].
      apply Rmult_le_pos; lra.
    - assert ((lon2 - lon1) * PI < 180 * PI) by (apply Rmult_lt_compat_r; lra). lra. }
  replace ((0 - 0) * PI / 180 / 2) with 0 by field.
  replace (0 * PI / 180) with 0 by field.
  rewrite sin_0, cos_0.
  replace (0 * 0 + 1 * 1 * sin x * sin x) with (sin x * sin x) by ring.
  assert (Hs : 0 <= sin x) by (apply sin_ge_0; lra).
  assert (Hc : 0 < cos x) by (apply cos_gt_0; lra).
  rewrite (sqrt_square _ Hs).
  replace (1 - sin x * sin x) with (cos x * cos x)
    by (pose proof (sin2_cos2 x) as H; unfold Rsqr in H; lra).
  rewrite (sqrt_square _ (Rlt_le _ _ Hc)).
  unfold arctan2. destruct (Rlt_dec 0 (cos x)) as [_ | H]; [| contradiction].
  change (sin x / cos x) with (tan x).
  rewrite atan_tan by lra.
  unfold x. field.
Qed.

(** ** The document tree *)

Lemma node_induction (P : node -> Prop) :
  (forall s, P (NavigableString s)) ->
  (forall nm a cs, Forall P cs -> P (Tag nm a cs)) ->
  forall n, P n.
Proof.
  intros HS HT.
  fix IH 1. intros [nm a cs | s]; [| apply HS].
  apply HT. induction cs as [| c cs IHcs]; constructor; [apply IH | exact IHcs].
Qed.

Lemma first_some_app {A B : Type} (f : A -> option B) (l l' : list A) :
  first_some f l = None -> first_some f (l ++ l') = first_some f l'.
Proof.
  induction l as [| a l IH]; simpl; [reflexivity |].
  destruct (f a); [discriminate | exact IH].
Qed.

(** After [replace_from] the search finds the new node; where
    [replace_from] finds nothing to replace, so does the search. *)
Lemma replace_from_find (nm : string) (new : node) :
  name_of new = Some nm ->
  forall n,
    (replace_from nm new n = None -> find_from nm n = None) /\
    (forall n', replace_from nm new n = Some n' -> find_from nm n' = Some new).
Proof.
  intros Hnew.
  assert (Hfound : find_from nm new = Some new).
  { destruct new as [nm' a cs | s]; [| discriminate].
    simpl in Hnew. injection Hnew as ->. simpl. rewrite String.eqb_refl. reflexivity. }
  induction n as [s | nm' a cs IH] using node_induction.
  - split; [reflexivity | discriminate].
  - simpl. destruct (String.eqb nm' nm) eqn:E.
    + split; [discriminate |]. intros n' H. injection H as <-. exact Hfound.
    + assert (Hcs :
        (first_update (replace_from nm new) cs = None ->
         first_some (find_from nm) cs = None) /\
        (forall cs', first_update (replace_from nm new) cs = Some cs' ->
                     first_some (find_from nm) cs' = Some new)).
      { induction IH as [| c cs [Hc1 Hc2] _ [IH1 IH2]]; simpl.
        - split; [reflexivity | discriminate].
        - destruct (replace_from nm new c) as [c' |] eqn:Ec.
          + split; [discriminate |]. intros cs' H. injection H as <-.
            simpl. rewrite (Hc2 c' eq_refl). reflexivity.
          + rewrite (Hc1 eq_refl).
            destruct (first_update (replace_from nm new) cs) as [l' |]; simpl.
            * split; [discriminate |]. intros cs' H. injection H as <-.
              simpl. rewrite (Hc1 eq_refl). apply IH2. reflexivity.
            * split; [intros _; apply IH1; reflexivity | discriminate]. }
      destruct Hcs as [H1 H2].
      destruct (first_update (replace_from nm new) cs) as [cs' |]; simpl.
      * split; [discriminate |]. intros n' H. injection H as <-.
        simpl. rewrite E. apply H2. reflexivity.
      * split; [intros _; apply H1; reflexivity | discriminate].
Qed.

Lemma first_update_find (nm : string) (new : node) (cs : list node) :
  name_of new = Some nm ->
  (first_update (replace_from nm new) cs = None ->
   first_some (find_from nm) cs = None) /\
  (forall cs', first_update (replace_from nm new) cs = Some cs' ->
               first_some (find_from nm) cs' = Some new).
Proof.
  intros Hnew. induction cs as [| c cs [IH1 IH2]]; simpl.
  - split; [reflexivity | discriminate].
  - destruct (replace_from_find nm new Hnew c) as [Hc1 Hc2].
    destruct (replace_from nm new c) as [c' |] eqn:Ec.
    + split; [discriminate |]. intros cs' H. injection H as <-.
      simpl. rewrite (Hc2 c' eq_refl). reflexivity.
    + rewrite (Hc1 eq_refl).
      destruct (first_update (replace_from nm new) cs) as [l' |]; simpl.
      * split; [discriminate |]. intros cs' H. injection H as <-.
        simpl. rewrite (Hc1 eq_refl). apply IH2. reflexivity.
      * split; [intros _; apply IH1; reflexivity | discriminate].
Qed.

(** The element that [add_extensions] leaves in a point: the new one,
    in the place of the old one or, where there was none, at the end. *)
Lemma replace_or_append_find (nm : string) (new n : node) :
  name_of new = Some nm -> is_Tag n = true ->
  find nm
    (match replace_with nm new n with
     | inr n' => n'
     | inl _ => append new n
     end) = Some new.
Proof.
  intros Hnew Htag. destruct n as [nm' a cs |]; [| discriminate].
  destruct (first_update_find nm new cs Hnew) as [H1 H2].
  unfold replace_with, find.
  destruct (first_update (replace_from nm new) cs) as [cs' |]; simpl.
  - apply H2. reflexivity.
  - rewrite first_some_app by (apply H1; reflexivity).
    simpl. destruct new as [nm'' a' cs'' | s]; [| discriminate].
    simpl in Hnew. injection Hnew as ->. simpl. rewrite String.eqb_refl. reflexivity.
Qed.

Lemma last_In {A : Type} (a : A) (l : list A) (d : A) : In (last (a :: l) d) (a :: l).
Proof.
  revert a d. induction l as [| b l IH]; intros a d.
  - left; reflexivity.
  - right. rewrite last_cons, (last_cons_indep b l a b). apply IH.
Qed.


(** ** Stationary time *)

Lemma rate_spec (p : TrackPoint.t) :
  0 <= TrackPoint.since_last p ->
  TrackPoint.rate p = spec_rate (TrackPoint.distance p) (TrackPoint.since_last p).
Proof.
  intros H. unfold TrackPoint.rate, spec_rate.
  destruct (Rlt_dec 0 (TrackPoint.since_last p)) as [Hp | Hp];
    destruct (Req_dec_T (TrackPoint.since_last p) 0) as [Hz | Hz];
    try reflexivity; lra.
Qed.

Lemma calc_still_time_spec (p : TrackPoint.t) :
  0 <= TrackPoint.distance p ->
  TrackPoint.calc_still_time p =
  spec_stationary (TrackPoint.distance p) (TrackPoint.since_last p).
Proof.
  intros Hd. unfold TrackPoint.calc_still_time, spec_stationary.
  destruct (Rle_dec 0 (TrackPoint.since_last p)) as [Hs | Hs].
  - rewrite (rate_spec p Hs). reflexivity.
  - assert (Hneg : TrackPoint.since_last p < 0) by lra.
    unfold TrackPoint.rate, spec_rate, TrackPoint.MIN_RATE.
    destruct (Rlt_dec 0 (TrackPoint.since_last p)) as [Hp | _]; [lra |].
    destruct (Req_dec_T (TrackPoint.since_last p) 0) as [Hz | _]; [lra |].
    assert (Hq : TrackPoint.distance p / TrackPoint.since_last p <= 0).
    { pose proof (Rinv_lt_0_compat _ Hneg) as Hinv. unfold Rdiv. nra. }
    destruct (Rlt_dec 0 1.5) as [_ | H0]; [| lra].
    destruct (Rlt_dec (TrackPoint.distance p / TrackPoint.since_last p) 1.5);
      [reflexivity | lra].
Qed.

Lemma calc_still_time_fresh (p : TrackPoint.t) :
  fresh p -> TrackPoint.calc_still_time p = 0.
Proof.
  intros (_ & _ & _ & _ & _ & Hs).
  unfold TrackPoint.calc_still_time. rewrite Hs.
  destruct (Rlt_dec (TrackPoint.rate p) TrackPoint.MIN_RATE); reflexivity.
Qed.

Lemma combine_linked {A : Type} (P : A -> A -> Prop) (a : A) (l : list A) :
  linked P a l -> Forall (fun ab => P (fst ab) (snd ab)) (combine (a :: l) l).
Proof.
  revert a; induction l as [| b l IH]; intros a; [constructor |].
  intros [H1 H2]. constructor; [exact H1 | apply IH; exact H2].
Qed.

Lemma map_snd_combine {A : Type} (a : A) (l : list A) :
  map snd (combine (a :: l) l) = l.
Proof.
  revert a; induction l as [| b l IH]; intros a; [reflexivity |].
  change (b :: map snd (combine (b :: l) l) = b :: l). rewrite IH. reflexivity.
Qed.

Lemma map_Forall_eq {A B : Type} (f g : A -> B) (l : list A) :
  Forall (fun x => f x = g x) l -> map f l = map g l.
Proof.
  induction 1 as [| x l Hx _ IH]; simpl; [reflexivity |]. rewrite Hx, IH. reflexivity.
Qed.

(** ** Degenerate tracks *)

Lemma total_seconds_of_zero (a b : Z) : a = b -> total_seconds_of (a - b) = 0.
Proof. intros ->. rewrite Z.sub_diag. unfold total_seconds_of. lra. Qed.

Lemma sum_zero (l : list R) :
  Forall (fun x => 0 <= x) l -> sum l = 0 -> Forall (fun x => x = 0) l.
Proof.
  induction 1 as [| x l Hx Hl IH]; [constructor |].
  rewrite sum_cons. intros H. pose proof (sum_nonneg l Hl).
  constructor; [lra | apply IH; lra].
Qed.

Lemma accumulated_zero (td : R) (l : list TrackPoint.t) :
  forall a,
    linked (accumulated td) a l ->
    TrackPoint.accumulated_distance a = 0 ->
    Forall (fun x => x = 0) (map TrackPoint.distance l) ->
    Forall (fun p => TrackPoint.accumulated_distance p = 0) l.
Proof.
  induction l as [| b l IH]; intros a; simpl; [constructor |].
  intros [[Hb _] Hl] Ha Hd. inversion Hd as [| x y Hx Hy]; subst x y.
  assert (Hb0 : TrackPoint.accumulated_distance b = 0) by lra.
  constructor; [exact Hb0 | eapply IH; eauto].
Qed.

(** With a total distance of 0 every position fraction after the first
    is [nan]. *)
Lemma normal_zero_distance (pts : list TrackPoint.t) (ts : R) :
  normal pts ts 0 -> Forall (fun p => TrackPoint.ndistance p = NaN) (tl pts).
Proof.
  intros (origin & out & -> & Hf & Hadj & Hacc & _ & Hsum & _). simpl.
  assert (Hd : Forall (fun x => x = 0) (map TrackPoint.distance out)).
  { apply sum_zero; [| symmetry; exact Hsum].
    apply Forall_map. exact (linked_adjusted_nonneg _ _ Hadj). }
  destruct Hf as (_ & _ & _ & H0 & _).
  pose proof (accumulated_zero _ _ _ Hacc H0 Hd) as Hz.
  pose proof (linked_Forall _ _ _ _ Hacc Hz) as H.
  apply (linked_Forall_snd _ origin).
  eapply linked_impl; [| exact H].
  simpl. intros x y [[_ Hn] Hy]. rewrite Hn, Hy. apply np_true_divide_nan.
Qed.

Lemma init_parse_error (L : PyLibs) (children : list node) :
  tags children = [] -> GpxFile.init L children = inl IndexError.
Proof. intros H. unfold GpxFile.init. rewrite H. reflexivity. Qed.

Lemma normalize_single (p : TrackPoint.t) :
  fresh p -> GpxFile.normalize [p] = inr ([p], 0, 0).
Proof.
  intros (_ & _ & Hd & _). unfold GpxFile.normalize. simpl.
  rewrite (total_seconds_of_zero _ _ eq_refl).
  rewrite sum_cons, sum_nil, Hd, Rplus_0_r. reflexivity.
Qed.

(** ** Synthesis *)

Lemma new_ext_finite (L : PyLibs) (self : TrackPoint.t) (ext : string) (poly : list R)
  (f : R) :
  TrackPoint.ndistance self = Fin f ->
  TrackPoint.new_ext L self ext poly = inr (synthesized L f (ext, poly)).
Proof.
  intros Hf. unfold TrackPoint.new_ext, synthesized, synthesized_text, is_temperature,
    prefixed. rewrite Hf. simpl.
  destruct (String.eqb (upto4 ext) "ns3:"); simpl;
    match goal with
    | |- context [String.eqb (from4 ?s) "atemp"] =>
        destruct (String.eqb (from4 s) "atemp")
    end; reflexivity.
Qed.

Lemma add_extensions_pt (L : PyLibs) (self : TrackPoint.t)
  (polyfit : TrackPoint.dict (list R)) (channels : list node) :
  map_result (fun kv => TrackPoint.new_ext L self (fst kv) (snd kv)) polyfit
    = inr channels ->
  TrackPoint.add_extensions L self polyfit =
  inr (TrackPoint.with_pt (replaced_or_appended (wrapper channels) (TrackPoint.pt self))
         self).
Proof.
  intros H. unfold TrackPoint.add_extensions. rewrite H. simpl.
  unfold replaced_or_appended, wrapper.
  destruct (replace_with "extensions" _ (TrackPoint.pt self)); reflexivity.
Qed.

Lemma add_extensions_finite (L : PyLibs) (self : TrackPoint.t)
  (polyfit : TrackPoint.dict (list R)) (f : R) :
  TrackPoint.ndistance self = Fin f ->
  TrackPoint.add_extensions L self polyfit =
  inr (TrackPoint.with_pt
         (replaced_or_appended (wrapper (map (synthesized L f) polyfit))
            (TrackPoint.pt self)) self).
Proof.
  intros Hf. apply add_extensions_pt. apply Forall2_map_result.
  induction polyfit as [| [ext poly] polyfit IH]; simpl; constructor; [| exact IH].
  exact (new_ext_finite L self ext poly f Hf).
Qed.

Lemma wrapper_found (channels : list node) (pt : node) :
  is_Tag pt = true ->
  find "extensions" (replaced_or_appended (wrapper channels) pt)
  = Some (wrapper channels).
Proof.
  intros Htag. unfold replaced_or_appended.
  apply replace_or_append_find; [reflexivity | exact Htag].
Qed.

Lemma init_pts_are_tags (L : PyLibs) (children : list node) (g : GpxFile.t) :
  GpxFile.init L children = inr g ->
  Forall (fun p => is_Tag (TrackPoint.pt p) = true) (GpxFile.pts g).
Proof.
  intros H. destruct (init_normal _ _ _ H) as (_ & Hpt & _).
  assert (Ht : Forall (fun c => is_Tag c = true) (map TrackPoint.pt (GpxFile.pts g))).
  { rewrite Hpt. unfold tags. apply Forall_forall. intros c Hc.
    apply filter_In in Hc. tauto. }
  apply Forall_map in Ht. exact Ht.
Qed.

Lemma collect_values_empty (L : PyLibs) (pts : list TrackPoint.t) :
  Forall (fun p => TrackPoint.extensions p = []) pts ->
  GpxFile.collect_values L pts = inr [].
Proof.
  unfold GpxFile.collect_values.
  induction 1 as [| p pts Hp _ IH]; simpl; [reflexivity |].
  unfold TrackPoint.append_fit_values at 1. rewrite Hp. simpl. exact IH.
Qed.

(** ** Time reconstruction *)

Lemma add_extensions_fields (L : PyLibs) (self self' : TrackPoint.t)
  (polyfit : TrackPoint.dict (list R)) :
  TrackPoint.add_extensions L self polyfit = inr self' ->
  exists n, self' = TrackPoint.with_pt n self.
Proof.
  unfold TrackPoint.add_extensions. intros H. inv_bind H.
  destruct (replace_with _ _ _); injection H as <-; eexists; reflexivity.
Qed.

Lemma fix_time_time (L : PyLibs) (p p' : TrackPoint.t) (start : Z) (eff : R) :
  TrackPoint.fix_time L p start eff = inr p' ->
  exists f, TrackPoint.ndistance p = Fin f /\
            TrackPoint.time p' = (start + rint (eff * f * 1000000))%Z.
Proof.
  unfold TrackPoint.fix_time. intros H. inv_bind H. inv_bind H. injection H as <-.
  destruct (TrackPoint.ndistance p) as [f | | s]; simpl in Ha.
  - injection Ha as <-. exists f. split; reflexivity.
  - discriminate.
  - destruct (Req_dec_T eff 0); discriminate.
Qed.






Lemma Forall2_compose {A B C : Type} (P : A -> B -> Prop) (Q : B -> C -> Prop)
  (l : list A) (l' : list B) (l'' : list C) :
  Forall2 P l l' -> Forall2 Q l' l'' ->
  Forall2 (fun a c => exists b, P a b /\ Q b c) l l''.
Proof.
  intros H. revert l''. induction H as [| a b l l' Hab _ IH]; intros l'' H2;
    inversion H2; subst; constructor; eauto.
Qed.

Lemma fix_time_finite (L : PyLibs) (self : TrackPoint.t) (start : Z) (eff f : R) (z : Z) :
  TrackPoint.ndistance self = Fin f ->
  rint (eff * f * 1000000) = z ->
  TrackPoint.fix_time L self start eff =
  (pt' <- set_string "time" (timestamp_text L (start + z)) (TrackPoint.pt self) ;;
   ret (TrackPoint.with_pt pt' (TrackPoint.with_time (start + z) self))).
Proof.
  intros Hf Hz. unfold TrackPoint.fix_time. rewrite Hf. simpl. rewrite Hz. reflexivity.
Qed.

(** ** The dictionaries of samples and of fits *)

Lemma lookup_update_same {V : Type} (k : string) (f : V -> V) (d : TrackPoint.dict V) :
  TrackPoint.lookup k (TrackPoint.update k f d) = option_map f (TrackPoint.lookup k d).
Proof.
  unfold TrackPoint.lookup.
  induction d as [| [k' v] d IH]; simpl; [reflexivity |].
  destruct (String.eqb k' k) eqn:E; simpl; rewrite E; [reflexivity | exact IH].
Qed.

Lemma lookup_update_other {V : Type} (k k' : string) (f : V -> V)
  (d : TrackPoint.dict V) :
  k' <> k ->
  TrackPoint.lookup k' (TrackPoint.update k f d) = TrackPoint.lookup k' d.
Proof.
  intros Hne. unfold TrackPoint.lookup.
  induction d as [| [k0 v] d IH]; simpl; [reflexivity |].
  destruct (String.eqb k0 k) eqn:E; simpl.
  - apply String.eqb_eq in E. subst k0.
    destruct (String.eqb k k') eqn:E'; [| reflexivity].
    apply String.eqb_eq in E'. congruence.
  - destruct (String.eqb k0 k'); [reflexivity | exact IH].
Qed.

Lemma lookup_insert_new_same {V : Type} (k : string) (v : V) (d : TrackPoint.dict V) :
  TrackPoint.lookup k d = None ->
  TrackPoint.lookup k (TrackPoint.insert_new k v d) = Some v.
Proof.
  unfold TrackPoint.lookup, TrackPoint.insert_new.
  induction d as [| [k' v'] d IH]; simpl.
  - intros _. rewrite String.eqb_refl. reflexivity.
  - destruct (String.eqb k' k); [discriminate | exact IH].
Qed.

Lemma lookup_insert_new_other {V : Type} (k k' : string) (v : V)
  (d : TrackPoint.dict V) :
  k' <> k ->
  TrackPoint.lookup k' (TrackPoint.insert_new k v d) = TrackPoint.lookup k' d.
Proof.
  intros Hne. unfold TrackPoint.lookup, TrackPoint.insert_new.
  induction d as [| [k0 v0] d IH]; simpl.
  - destruct (String.eqb k k') eqn:E; [| reflexivity].
    apply String.eqb_eq in E. congruence.
  - destruct (String.eqb k0 k'); [reflexivity | exact IH].
Qed.

Lemma for_each_inv {A S : Type} (body : S -> A -> result S) (I : list A -> S -> Prop) :
  (forall done s a s', I done s -> body s a = inr s' -> I (done ++ [a]) s') ->
  forall l done s s',
    I done s -> for_each body l s = inr s' -> I (done ++ l) s'.
Proof.
  intros Hstep. induction l as [| a l IH]; intros done s s' HI H; simpl in H.
  - injection H as <-. rewrite app_nil_r. exact HI.
  - inv_bind H. replace (done ++ a :: l) with ((done ++ [a]) ++ l)
      by (rewrite <- app_assoc; reflexivity).
    eapply IH; [| exact H]. eapply Hstep; eauto.
Qed.

Lemma append_fit_value_collected (L : PyLibs) (p : TrackPoint.t)
  (events : list (R * node)) (values values' : TrackPoint.dict TrackPoint.samples)
  (ext : node) :
  collected L events values ->
  TrackPoint.append_fit_value L p values ext = inr values' ->
  collected L (events ++ [(TrackPoint.nelapsed p, ext)]) values'.
Proof.
  intros Hc H. unfold TrackPoint.append_fit_value in H.
  destruct (name_of ext) as [nm0 |] eqn:Hname; [| discriminate].
  inv_bind H. injection H as <-.
  set (values1 := match TrackPoint.lookup nm0 values with
                  | Some _ => values
                  | None => TrackPoint.insert_new nm0 (TrackPoint.Samples [] []) values
                  end) in *.
  intros nm. rewrite filter_app. simpl. unfold carries at 2 4 6. rewrite Hname.
  destruct (String.eqb nm0 nm) eqn:E.
  - apply String.eqb_eq in E. subst nm.
    rewrite !lookup_update_same.
    assert (H1 : exists s0,
               TrackPoint.lookup nm0 values1 = Some s0 /\
               TrackPoint.xs s0 =
                 map fst (filter (fun ev => carries nm0 (snd ev)) events) /\
               Forall2 (fun e y => py_float L (string_of e) = inr y)
                 (map snd (filter (fun ev => carries nm0 (snd ev)) events))
                 (TrackPoint.ys s0)).
    { specialize (Hc nm0). unfold values1.
      destruct (TrackPoint.lookup nm0 values) as [s |] eqn:El.
      - exists s. rewrite El. tauto.
      - exists (TrackPoint.Samples [] []).
        rewrite (lookup_insert_new_same _ _ _ El), Hc. simpl.
        repeat split. constructor. }
    destruct H1 as (s0 & -> & Hx & Hy). simpl.
    rewrite !map_app, Hx. split; [reflexivity |].
    apply Forall2_app; [exact Hy |]. simpl. constructor; [exact Ha | constructor].
  - assert (Hne : nm <> nm0).
    { intros ->. rewrite String.eqb_refl in E. discriminate. }
    rewrite !lookup_update_other by exact Hne.
    rewrite app_nil_r.
    replace (TrackPoint.lookup nm values1) with (TrackPoint.lookup nm values).
    + exact (Hc nm).
    + unfold values1. destruct (TrackPoint.lookup nm0 values); [reflexivity |].
      symmetry. apply lookup_insert_new_other. exact Hne.
Qed.

Lemma collect_values_collected (L : PyLibs) (pts : list TrackPoint.t)
  (values : TrackPoint.dict TrackPoint.samples) :
  GpxFile.collect_values L pts = inr values ->
  collected L (flat_map events_of pts) values.
Proof.
  unfold GpxFile.collect_values. intros H.
  pose proof (for_each_inv
                (fun values p => TrackPoint.append_fit_values L p values)
                (fun done values => collected L (flat_map events_of done) values)) as HI.
  apply (HI) with (done := []) (l := pts) (s := []); [| intros nm; reflexivity | exact H].
  intros done s p s' Hs Hp. rewrite flat_map_app. simpl. rewrite app_nil_r.
  unfold TrackPoint.append_fit_values in Hp.
  pose proof (for_each_inv (TrackPoint.append_fit_value L p)
                (fun exts values =>
                   collected L (flat_map events_of done
                                ++ map (fun e => (TrackPoint.nelapsed p, e)) exts)
                     values)) as HJ.
  unfold events_of.
  apply HJ with (done := []) (l := TrackPoint.extensions p) (s := s);
    [| simpl; rewrite app_nil_r; exact Hs | exact Hp].
  intros done' s0 e s0' Hs0 He. rewrite map_app, app_assoc. simpl.
  eapply append_fit_value_collected; eauto.
Qed.

Lemma filter_events (nm : string) (pts : list TrackPoint.t) :
  map fst (filter (fun ev => carries nm (snd ev)) (flat_map events_of pts))
  = channel_time_fractions nm pts /\
  map snd (filter (fun ev => carries nm (snd ev)) (flat_map events_of pts))
  = channel_raw nm pts.
Proof.
  unfold channel_time_fractions, channel_raw, channel_elements.
  induction pts as [| p pts [IH1 IH2]]; simpl; [split; reflexivity |].
  rewrite filter_app, !map_app, IH1, IH2.
  assert (H : forall l,
             map fst (filter (fun ev => carries nm (snd ev))
                        (map (fun e => (TrackPoint.nelapsed p, e)) l))
             = map (fun _ => TrackPoint.nelapsed p) (filter (carries nm) l) /\
             map snd (filter (fun ev => carries nm (snd ev))
                        (map (fun e => (TrackPoint.nelapsed p, e)) l))
             = filter (carries nm) l).
  { induction l as [| e l [H1 H2]]; simpl; [split; reflexivity |].
    destruct (carries nm e); simpl; rewrite ?H1, ?H2; split; reflexivity. }
  unfold events_of. destruct (H (TrackPoint.extensions p)) as [-> ->].
  split; reflexivity.
Qed.

Lemma make_polyfit_lookup (L : PyLibs) (values : TrackPoint.dict TrackPoint.samples)
  (polyfit : TrackPoint.dict (list R)) :
  GpxFile.make_polyfit L values = inr polyfit ->
  forall nm poly,
    TrackPoint.lookup nm polyfit = Some poly ->
    exists s, TrackPoint.lookup nm values = Some s /\
              np_polyfit L (TrackPoint.xs s) (TrackPoint.ys s) 3 = inr poly.
Proof.
  unfold GpxFile.make_polyfit. revert polyfit.
  induction values as [| [k s] values IH]; intros polyfit H nm poly Hl; simpl in H.
  - injection H as <-. discriminate.
  - apply bind_inr in H. destruct H as ([k' c] & Hkc & H).
    apply bind_inr in Hkc. destruct Hkc as (pfit & Hfit & Hkc). injection Hkc as <- <-.
    apply bind_inr in H. destruct H as (rest & Hrest & H). injection H as <-.
    unfold TrackPoint.lookup in *. simpl in *.
    destruct (String.eqb k nm).
    + simpl in Hl. injection Hl as <-. exists s. split; [reflexivity | exact Hfit].
    + eapply IH; eauto.
Qed.

(** ** Running the embedding on the example documents *)

Lemma float_of_str_decimal (s : string) (n d : Z) :
  Ref.parse_decimal s = Some (n, d) -> Ref.float_of_str s = inr (IZR n / IZR d).
Proof. unfold Ref.float_of_str. intros ->. reflexivity. Qed.

Lemma float_truediv_ok (x y : R) : y <> 0 -> float_truediv x y = inr (x / y).
Proof.
  intros Hy. unfold float_truediv.
  destruct (Req_dec_T y 0); [contradiction | reflexivity].
Qed.

Lemma Rlt_dec_true (x y : R) (A : Type) (a b : A) :
  x < y -> (if Rlt_dec x y then a else b) = a.
Proof. intros H. destruct (Rlt_dec x y); [reflexivity | contradiction]. Qed.

Lemma Rlt_dec_false (x y : R) (A : Type) (a b : A) :
  y <= x -> (if Rlt_dec x y then a else b) = b.
Proof. intros H. destruct (Rlt_dec x y); [lra | reflexivity]. Qed.

Lemma great_circle_coincident (lat1 lon1 lat2 lon2 : R) :
  lat2 = lat1 -> lon2 = lon1 -> great_circle lat1 lon1 lat2 lon2 = 0.
Proof. intros -> ->. apply great_circle_same. Qed.

Lemma np_true_divide_zero (x y : R) : x = 0 -> y = 0 -> np_true_divide x y = NaN.
Proof. intros -> ->. apply np_true_divide_nan. Qed.

Ltac ref_parse :=
  repeat match goal with
  | |- context [Ref.float_of_str ?s] =>
      let v := eval vm_compute in (Ref.parse_decimal s) in
      match v with
      | Some (?n, ?d) =>
          rewrite (float_of_str_decimal s n d ltac:(vm_compute; reflexivity))
      end
  | |- context [Ref.dateutil_parse ?s] =>
      let v := eval vm_compute in (Ref.dateutil_parse s) in
      change (Ref.dateutil_parse s) with v
  end.

Ltac real_side := pose proof PI_gt_3; unfold total_seconds_of; lra.

Ltac decide_Rlt :=
  match goal with
  | |- context [Rlt_dec ?x ?y] =>
      first [ rewrite (Rlt_dec_true x y) by real_side
            | rewrite (Rlt_dec_false x y) by real_side ]
  end.

(** One step of the construction of a [GpxFile] from a document. *)
Ltac run_step :=
  first
    [ rewrite adjust_distance_eq
    | progress unfold TrackPoint.adjust_time, TrackPoint.set_ndistance,
        TrackPoint.calc_still_time, TrackPoint.rate, TrackPoint.MIN_RATE
    | rewrite float_truediv_ok by real_side
    | rewrite great_circle_coincident by lra
    | rewrite great_circle_equator by lra
    | rewrite np_true_divide_ok by real_side
    | rewrite np_true_divide_zero by real_side
    | decide_Rlt
    | progress ref_parse
    | progress cbn ].

Ltac run_init :=
  unfold GpxFile.init, GpxFile.init_pts, GpxFile.normalize; repeat run_step.

Ltac expose :=
  cbv [TrackPoint.with_pt TrackPoint.with_time TrackPoint.with_elapsed
       TrackPoint.with_nelapsed TrackPoint.with_distance
       TrackPoint.with_accumulated_distance TrackPoint.with_ndistance
       TrackPoint.with_since_last GpxFile.with_pts
       TrackPoint.pt TrackPoint.lat TrackPoint.lon TrackPoint.time
       TrackPoint.ele TrackPoint.elapsed TrackPoint.nelapsed
       TrackPoint.distance TrackPoint.accumulated_distance
       TrackPoint.ndistance TrackPoint.since_last TrackPoint.extensions].

Ltac real_eq :=
  unfold total_seconds_of;
  first [ reflexivity | lra | field; pose proof PI_gt_3; lra ].

(** Equality of two values up to equations between their real numbers. *)
Ltac same :=
  lazymatch goal with
  | |- @eq R _ _ => real_eq
  | |- @eq Z _ _ => reflexivity
  | |- @eq _ _ _ => first [ reflexivity | f_equal; same ]
  end.

(** The construction, stage by stage. *)
Lemma init_stages (L : PyLibs) (children : list node) (pts0 pts1 : list TrackPoint.t)
  (ts td still : R) (values : TrackPoint.dict TrackPoint.samples)
  (polyfit : TrackPoint.dict (list R)) :
  map_result (TrackPoint.init L) (tags children) = inr pts0 ->
  GpxFile.normalize pts0 = inr (pts1, ts, td) ->
  GpxFile.collect_values L pts1 = inr values ->
  GpxFile.make_polyfit L values = inr polyfit ->
  sum (map TrackPoint.calc_still_time pts1) = still ->
  GpxFile.init L children = inr (GpxFile.Build children pts1 ts td values polyfit still).
Proof.
  intros H0 H1 H2 H3 H4. unfold GpxFile.init, GpxFile.init_pts.
  rewrite H0; simpl. rewrite H1; simpl. rewrite H2; simpl. rewrite H3; simpl.
  rewrite H4. reflexivity.
Qed.

Ltac run_parse := cbn; ref_parse; cbn; unfold ret, Example.parsed; same.

Ltac run_normalize := unfold GpxFile.normalize; repeat run_step; expose; unfold ret; same.

Ltac run_values := unfold GpxFile.collect_values; repeat run_step; unfold ret; same.

Ltac run_still := repeat run_step; unfold sum; cbn; real_eq.

(** One call of [TrackPoint.add_extensions] on a point with a finite
    position fraction. *)
Ltac run_add_extensions :=
  match goal with
  | |- context [TrackPoint.add_extensions ?L ?p ?pf] =>
      let nd := eval cbn in (TrackPoint.ndistance p) in
      match nd with
      | Fin ?f => rewrite (add_extensions_finite L p pf f eq_refl)
      end
  end.

#[local] Arguments rint : simpl never.
#[local] Arguments int_str : simpl never.
#[local] Arguments horner : simpl never.
#[local] Arguments TrackPoint.fix_time : simpl never.
#[local] Arguments timestamp_text : simpl never.

(** One call of [TrackPoint.fix_time] that adds [z] microseconds. *)
Ltac run_fix_time z :=
  match goal with
  | |- context [TrackPoint.fix_time ?L ?p ?s ?e] =>
      let nd := eval cbn in (TrackPoint.ndistance p) in
      match nd with
      | Fin ?f =>
          rewrite (fix_time_finite L p s e f z eq_refl
                     ltac:(apply rint_near; cbn; lra))
      end
  end;
  match goal with
  | |- context [timestamp_text ?L ?t] =>
      let v := eval vm_compute in (timestamp_text L t) in
      change (timestamp_text L t) with v
  end;
  cbn.

(** *** The document [Example.paused] *)

Lemma paused_parse :
  map_result (TrackPoint.init Ref.libs) (tags Example.paused) = inr Example.paused_parsed.
Proof. unfold Example.paused_parsed, Example.t0. run_parse. Qed.

Lemma paused_normalize :
  GpxFile.normalize Example.paused_parsed =
  inr (Example.paused_pts, 20, 6371 * PI / 180).
Proof.
  unfold Example.paused_parsed, Example.paused_pts, Example.parsed, Example.t0.
  run_normalize.
Qed.

Lemma paused_collect :
  GpxFile.collect_values Ref.libs Example.paused_pts = inr Example.paused_values.
Proof. unfold Example.paused_pts, Example.paused_values. run_values. Qed.

Lemma paused_make_polyfit :
  GpxFile.make_polyfit Ref.libs Example.paused_values = inr Example.paused_polyfit.
Proof. reflexivity. Qed.

Lemma paused_still : sum (map TrackPoint.calc_still_time Example.paused_pts) = 10.
Proof. unfold Example.paused_pts. run_still. Qed.

Lemma init_paused : GpxFile.init Ref.libs Example.paused = inr Example.paused_file.
Proof.
  exact (init_stages _ _ _ _ _ _ _ _ _ paused_parse paused_normalize paused_collect
           paused_make_polyfit paused_still).
Qed.

(** *** The document [Example.standstill] *)

Lemma standstill_parse :
  map_result (TrackPoint.init Ref.libs) (tags Example.standstill) =
  inr Example.standstill_parsed.
Proof. unfold Example.standstill_parsed, Example.t0. run_parse. Qed.

Lemma standstill_normalize :
  GpxFile.normalize Example.standstill_parsed = inr (Example.standstill_pts, 10, 0).
Proof.
  unfold Example.standstill_parsed, Example.standstill_pts, Example.parsed, Example.t0.
  run_normalize.
Qed.

Lemma standstill_still :
  sum (map TrackPoint.calc_still_time Example.standstill_pts) = 10.
Proof. unfold Example.standstill_pts. run_still. Qed.

Lemma init_standstill :
  GpxFile.init Ref.libs Example.standstill = inr Example.standstill_file.
Proof.
  exact (init_stages _ _ _ _ _ _ _ _ _ standstill_parse standstill_normalize
           eq_refl eq_refl standstill_still).
Qed.

(** *** The document [Example.single] *)

Lemma single_parse :
  map_result (TrackPoint.init Ref.libs) (tags Example.single) = inr Example.single_pts.
Proof. unfold Example.single_pts, Example.t0. run_parse. Qed.

Lemma single_normalize :
  GpxFile.normalize Example.single_pts = inr (Example.single_pts, 0, 0).
Proof.
  unfold Example.single_pts, Example.parsed, Example.t0.
  run_normalize.
Qed.

Lemma single_still : sum (map TrackPoint.calc_still_time Example.single_pts) = 0.
Proof. unfold Example.single_pts, Example.parsed. run_still. Qed.

Lemma init_single : GpxFile.init Ref.libs Example.single = inr Example.single_file.
Proof.
  exact (init_stages _ _ _ _ _ _ _ _ _ single_parse single_normalize
           eq_refl eq_refl single_still).
Qed.

(** *** The document [Example.reference] *)

Lemma reference_parse :
  map_result (TrackPoint.init Ref.libs) (tags Example.reference) =
  inr Example.reference_parsed.
Proof. unfold Example.reference_parsed, Example.t1. run_parse. Qed.

Lemma reference_normalize :
  GpxFile.normalize Example.reference_parsed =
  inr (Example.reference_pts, 90, 3 * (6371 * PI / 180)).
Proof.
  unfold Example.reference_parsed, Example.reference_pts, Example.parsed, Example.t1.
  run_normalize.
Qed.

Lemma reference_still :
  sum (map TrackPoint.calc_still_time Example.reference_pts) = 0.
Proof. unfold Example.reference_pts. run_still. Qed.

Lemma init_reference :
  GpxFile.init Ref.libs Example.reference = inr Example.reference_file.
Proof.
  exact (init_stages _ _ _ _ _ _ _ _ _ reference_parse reference_normalize
           eq_refl eq_refl reference_still).
Qed.

(** *** The document [Example.instant] *)


(** *** [main] on [Example.paused] and [Example.reference] *)

Lemma fused_add_extensions :
  GpxFile.add_extensions Ref.libs Example.reference_file Example.paused_file
  = inr Example.reference_extended.
Proof.
  unfold GpxFile.add_extensions. cbn.
  repeat (run_add_extensions; cbn).
  reflexivity.
Qed.

Lemma fused_fix_time :
  GpxFile.fix_time Ref.libs Example.reference_extended Example.paused_file
  = inr Example.reference_fused.
Proof.
  unfold GpxFile.fix_time. cbn.
  run_fix_time 0%Z. run_fix_time 3333333%Z. run_fix_time 10000000%Z.
  reflexivity.
Qed.

Lemma main_fused :
  main Ref.libs Example.paused Example.reference = inr Example.fused.
Proof.
  unfold main.
  rewrite init_paused. cbn [bind]. rewrite init_reference. cbn [bind].
  rewrite fused_add_extensions. cbn [bind]. rewrite fused_fix_time. reflexivity.
Qed.

(** *** [main] on [Example.paused] and [Example.single] *)

Lemma single_add_extensions :
  GpxFile.add_extensions Ref.libs Example.single_file Example.paused_file
  = inr Example.single_extended.
Proof.
  unfold GpxFile.add_extensions. cbn.
  repeat (run_add_extensions; cbn).
  reflexivity.
Qed.

Lemma single_fix_time :
  GpxFile.fix_time Ref.libs Example.single_extended Example.paused_file
  = inr Example.single_fused.
Proof.
  unfold GpxFile.fix_time. cbn.
  run_fix_time 0%Z.
  reflexivity.
Qed.

Lemma main_single :
  main Ref.libs Example.paused Example.single = inr Example.fused_single.
Proof.
  unfold main.
  rewrite init_paused. cbn [bind]. rewrite init_single. cbn [bind].
  rewrite single_add_extensions. cbn [bind]. rewrite single_fix_time. reflexivity.
Qed.

(** * The claims *)

(** ** Position fractions (C7) *)



(** ** Stationary time (C6) *)

(** C6.  For every point after the first, [distance] and [since_last]
    are the distance from and the duration since the previous point;
    the rate is their quotient (0 when the duration is 0; the code also
    takes 0 for a negative duration, which contributes the same); the
    point contributes its whole duration when the rate is below 1.5 and
    0 otherwise; and the total stationary duration is the sum of these
    contributions. *)
Theorem stationary_duration (L : PyLibs) (children : list node) (g : GpxFile.t) :
  GpxFile.init L children = inr g ->
  GpxFile.total_still_time g =
    sum (map (fun ab => spec_stationary (interval_distance ab) (interval_duration ab))
           (intervals (GpxFile.pts g))) /\
  Forall (fun ab =>
            TrackPoint.distance (snd ab) = interval_distance ab /\
            TrackPoint.since_last (snd ab) = interval_duration ab /\
            (0 <= interval_duration ab ->
             TrackPoint.rate (snd ab) =
             spec_rate (interval_distance ab) (interval_duration ab)) /\
            TrackPoint.calc_still_time (snd ab) =
            spec_stationary (interval_distance ab) (interval_duration ab))
    (intervals (GpxFile.pts g)).
Proof.
  intros Hinit.
  destruct (init_structure _ _ _ Hinit) as (_ & _ & _ & _ & _ & Hstill & _).
  destruct (init_normal _ _ _ Hinit) as (Hn & _).
  destruct Hn as (origin & out & Hpts & Hf & Hadj & _).
  rewrite Hstill, Hpts. unfold intervals. simpl tl.
  pose proof (combine_linked _ _ _ Hadj) as Hpairs.
  assert (Hall : Forall (fun ab =>
            TrackPoint.distance (snd ab) = interval_distance ab /\
            TrackPoint.since_last (snd ab) = interval_duration ab /\
            (0 <= interval_duration ab ->
             TrackPoint.rate (snd ab) =
             spec_rate (interval_distance ab) (interval_duration ab)) /\
            TrackPoint.calc_still_time (snd ab) =
            spec_stationary (interval_distance ab) (interval_duration ab))
          (combine (origin :: out) out)).
  { eapply Forall_impl; [| exact Hpairs].
    intros [a b]. unfold adjusted, interval_distance, interval_duration. simpl.
    intros [Hd Hs]. split; [exact Hd |]. split; [exact Hs |]. split.
    - intros H. rewrite <- Hd, <- Hs. apply rate_spec. rewrite Hs. exact H.
    - rewrite <- Hd, <- Hs. apply calc_still_time_spec.
      rewrite Hd. apply great_circle_nonneg. }
  split; [| exact Hall].
  rewrite map_cons, sum_cons, (calc_still_time_fresh _ Hf), Rplus_0_l.
  rewrite <- (map_snd_combine origin out) at 1. rewrite map_map.
  f_equal. apply map_Forall_eq.
  eapply Forall_impl; [| exact Hall]. intros ab (_ & _ & _ & H). exact H.
Qed.

(** C6 on [Example.paused]: ten of its twenty seconds are stationary. *)
Lemma stationary_duration_witness :
  GpxFile.init Ref.libs Example.paused = inr Example.paused_file /\
  GpxFile.total_still_time Example.paused_file =
    sum (map (fun ab => spec_stationary (interval_distance ab) (interval_duration ab))
           (intervals (GpxFile.pts Example.paused_file))) /\
  Forall (fun ab =>
            TrackPoint.distance (snd ab) = interval_distance ab /\
            TrackPoint.since_last (snd ab) = interval_duration ab /\
            (0 <= interval_duration ab ->
             TrackPoint.rate (snd ab) =
             spec_rate (interval_distance ab) (interval_duration ab)) /\
            TrackPoint.calc_still_time (snd ab) =
            spec_stationary (interval_distance ab) (interval_duration ab))
    (intervals (GpxFile.pts Example.paused_file)).
Proof.
  split; [exact init_paused |].
  exact (stationary_duration Ref.libs Example.paused Example.paused_file init_paused).
Defined.

(** ** Degenerate tracks (C3) *)




(** ** Tracks of fewer than two points (C4) *)

(** C4, as stated, fails: a track of one point is constructed without
    error, and [main] with it as the replacement prints a fused track. *)
Lemma short_track_counterexample :
  GpxFile.init Ref.libs Example.single = inr Example.single_file /\
  main Ref.libs Example.paused Example.single = inr Example.fused_single.
Proof. split; [exact init_single | exact main_single]. Qed.

(** C4, amended.  A track without points fails construction with
    [IndexError], and [main], given it as the replacement of a source
    that was constructed, stops there.  A track of exactly one point
    raises no error in normalization: total duration and total distance
    are 0 and the point keeps the fields it started with; without
    channels its construction succeeds. *)
Theorem short_track (L : PyLibs) (children : list node) :
  (tags children = [] ->
   GpxFile.init L children = inl IndexError /\
   forall gpx original, GpxFile.init L gpx = inr original ->
                        main L gpx children = inl IndexError) /\
  (forall p, map_result (TrackPoint.init L) (tags children) = inr [p] ->
             fresh p /\ GpxFile.normalize [p] = inr ([p], 0, 0) /\
             (TrackPoint.extensions p = [] ->
              GpxFile.init L children = inr (GpxFile.Build children [p] 0 0 [] [] 0))).
Proof.
  split.
  - intros Hempty. pose proof (init_parse_error L children Hempty) as H.
    split; [exact H |]. intros gpx original Hgpx.
    unfold main. rewrite Hgpx. simpl. rewrite H. reflexivity.
  - intros p Hparse.
    destruct (parsed_points _ _ _ Hparse) as (Hfresh & _ & _).
    inversion Hfresh as [| x y Hp _]; subst x y.
    split; [exact Hp |]. split; [exact (normalize_single p Hp) |].
    intros Hext. apply (init_stages L children [p] [p] 0 0 0 [] []).
    + exact Hparse.
    + exact (normalize_single p Hp).
    + unfold GpxFile.collect_values. simpl.
      unfold TrackPoint.append_fit_values. rewrite Hext. reflexivity.
    + reflexivity.
    + simpl map. rewrite sum_cons, sum_nil, (calc_still_time_fresh p Hp). lra.
Qed.

(** C4, amended, on a segment without points and on [Example.single]. *)
Lemma short_track_witness :
  (GpxFile.init Ref.libs [NavigableString " "] = inl IndexError /\
   main Ref.libs Example.paused [NavigableString " "] = inl IndexError) /\
  GpxFile.normalize Example.single_pts = inr (Example.single_pts, 0, 0) /\
  GpxFile.init Ref.libs Example.single = inr Example.single_file.
Proof.
  split.
  - destruct (proj1 (short_track Ref.libs [NavigableString " "]) eq_refl) as [H1 H2].
    split; [exact H1 | exact (H2 Example.paused Example.paused_file init_paused)].
  - destruct (proj2 (short_track Ref.libs Example.single) _ single_parse)
      as (_ & H1 & H2).
    split; [exact H1 | exact (H2 eq_refl)].
Defined.

(** ** Rounding of synthesized values (C9) *)



(** ** A source without channels (C10) *)

(** C10.  When no point of the source carries channel elements, its
    construction succeeds once its points are parsed and normalized,
    with an empty mapping; synthesis then raises no error and leaves in
    every reference point a wrapper without channel elements, in the
    place of the point's old extensions element or, where there was
    none, at the end. *)
Theorem empty_mapping (L : PyLibs) (gpx replace : list node)
  (pts0 pts1 : list TrackPoint.t) (ts td : R) (r0 : GpxFile.t) :
  Forall (fun c => TrackPoint.parse_extensions c = []) (tags gpx) ->
  map_result (TrackPoint.init L) (tags gpx) = inr pts0 ->
  GpxFile.normalize pts0 = inr (pts1, ts, td) ->
  GpxFile.init L replace = inr r0 ->
  exists original r1,
    GpxFile.init L gpx = inr original /\
    GpxFile.values original = [] /\
    GpxFile.polyfit original = [] /\
    GpxFile.add_extensions L r0 original = inr r1 /\
    Forall2 (fun p p' =>
               TrackPoint.pt p' = replaced_or_appended (wrapper []) (TrackPoint.pt p) /\
               find "extensions" (TrackPoint.pt p') = Some (wrapper []))
      (GpxFile.pts r0) (GpxFile.pts r1).
Proof.
  intros Hnone Hparse Hnorm Hr0.
  destruct (parsed_points _ _ _ Hparse) as (Hfresh & Hpt & Hext).
  destruct (normalize_normal _ _ _ _ Hfresh Hnorm) as [_ Hsame].
  assert (Hempty : Forall (fun p => TrackPoint.extensions p = []) pts1).
  { assert (H0 : Forall (fun p => TrackPoint.extensions p = []) pts0).
    { rewrite <- Hpt in Hnone. apply Forall_map in Hnone.
      rewrite Forall_forall in *. intros p Hp. rewrite (Hext p Hp). auto. }
    clear - Hsame H0. induction Hsame as [| p p' l l' Hp _ IH]; [constructor |].
    inversion H0; subst. constructor; [| auto].
    destruct Hp as (_ & _ & _ & _ & _ & He). congruence. }
  pose proof (init_stages L gpx pts0 pts1 ts td _ [] [] Hparse Hnorm
                (collect_values_empty L pts1 Hempty) eq_refl eq_refl) as Hinit.
  eexists. eexists. split; [exact Hinit |]. simpl.
  split; [reflexivity |]. split; [reflexivity |].
  pose proof (init_pts_are_tags _ _ _ Hr0) as Htags.
  unfold GpxFile.add_extensions. simpl.
  assert (Hmap :
    map_result (fun p => TrackPoint.add_extensions L p []) (GpxFile.pts r0) =
    inr (map (fun p => TrackPoint.with_pt
                         (replaced_or_appended (wrapper []) (TrackPoint.pt p)) p)
           (GpxFile.pts r0))).
  { apply Forall2_map_result.
    clear - Htags. induction (GpxFile.pts r0) as [| p l IH]; simpl; constructor.
    - apply add_extensions_pt. reflexivity.
    - apply IH. inversion Htags; assumption. }
  rewrite Hmap. simpl. split; [reflexivity |].
  clear - Htags. induction Htags as [| p l Hp _ IH]; simpl; constructor; [| exact IH].
  split; [reflexivity | exact (wrapper_found [] _ Hp)].
Qed.

(** C10 with [Example.reference] as the source and [Example.paused], whose
    points carry a heart rate, as the replacement. *)
Lemma empty_mapping_witness :
  (Forall (fun c => TrackPoint.parse_extensions c = []) (tags Example.reference) /\
   map_result (TrackPoint.init Ref.libs) (tags Example.reference)
   = inr Example.reference_parsed /\
   GpxFile.normalize Example.reference_parsed
   = inr (Example.reference_pts, 90, 3 * (6371 * PI / 180)) /\
   GpxFile.init Ref.libs Example.paused = inr Example.paused_file) /\
  exists original r1,
    GpxFile.init Ref.libs Example.reference = inr original /\
    GpxFile.values original = [] /\
    GpxFile.polyfit original = [] /\
    GpxFile.add_extensions Ref.libs Example.paused_file original = inr r1 /\
    Forall2 (fun p p' =>
               TrackPoint.pt p' = replaced_or_appended (wrapper []) (TrackPoint.pt p) /\
               find "extensions" (TrackPoint.pt p') = Some (wrapper []))
      (GpxFile.pts Example.paused_file) (GpxFile.pts r1).
Proof.
  assert (H1 : Forall (fun c => TrackPoint.parse_extensions c = [])
                 (tags Example.reference))
    by (repeat constructor).
  split.
  - split; [exact H1 |]. split; [exact reference_parse |].
    split; [exact reference_normalize | exact init_paused].
  - exact (empty_mapping Ref.libs Example.reference Example.paused _ _ _ _ _
             H1 reference_parse reference_normalize init_paused).
Defined.

(** ** Time reconstruction (C5) *)



(** ** The abscissa of the regression (C1) *)

(** C1, as stated, fails: on [Example.paused] the heart-rate samples
    have the abscissae 0, 1/2 and 1, the time fractions of the points,
    while the position fractions of these points are 0, 0 and 1. *)
Lemma regression_abscissa_counterexample :
  GpxFile.init Ref.libs Example.paused = inr Example.paused_file /\
  TrackPoint.lookup "ns3:hr" (GpxFile.values Example.paused_file)
  = Some (TrackPoint.Samples [0; 1 / 2; 1] [100; 110; 120]) /\
  channel_position_fractions "ns3:hr" (GpxFile.pts Example.paused_file)
  = [Fin 0; Fin 0; Fin 1] /\
  map Fin [0; 1 / 2; 1] <> [Fin 0; Fin 0; Fin 1].
Proof.
  split; [exact init_paused |]. split; [reflexivity |]. split; [reflexivity |].
  simpl. intros H. injection H as H. lra.
Qed.

(** C1, amended.  For every channel of a constructed source track, the
    fitted polynomial is [np.polyfit], with degree 3, of the samples
    whose abscissa is the time fraction of the sample's point (elapsed
    time over total duration) and whose ordinate is the raw channel
    value; synthesis evaluates the polynomial at the position fraction
    of the reference point. *)
Theorem regression_abscissa (L : PyLibs) (children : list node) (g : GpxFile.t) :
  GpxFile.init L children = inr g ->
  (forall nm poly,
      TrackPoint.lookup nm (GpxFile.polyfit g) = Some poly ->
      exists s,
        TrackPoint.lookup nm (GpxFile.values g) = Some s /\
        np_polyfit L (TrackPoint.xs s) (TrackPoint.ys s) 3 = inr poly /\
        TrackPoint.xs s = channel_time_fractions nm (GpxFile.pts g) /\
        Forall2 (fun e y => py_float L (string_of e) = inr y)
          (channel_raw nm (GpxFile.pts g)) (TrackPoint.ys s)) /\
  (exists origin,
      hd_error (GpxFile.pts g) = Some origin /\
      Forall (fun p => TrackPoint.nelapsed p =
                       total_seconds_of (TrackPoint.time p - TrackPoint.time origin)
                       / GpxFile.total_seconds g) (GpxFile.pts g)) /\
  (forall self ext poly f,
      TrackPoint.ndistance self = Fin f ->
      TrackPoint.new_ext L self ext poly = inr (synthesized L f (ext, poly))).
Proof.
  intros Hinit.
  destruct (init_structure _ _ _ Hinit) as (_ & _ & _ & Hcol & Hfit & _).
  split; [| split].
  - intros nm poly Hl.
    destruct (make_polyfit_lookup _ _ _ Hfit nm poly Hl) as (s & Hs & Hp).
    exists s. split; [exact Hs |]. split; [exact Hp |].
    pose proof (collect_values_collected _ _ _ Hcol nm) as Hc.
    rewrite Hs in Hc. destruct (filter_events nm (GpxFile.pts g)) as [<- <-].
    exact Hc.
  - destruct (init_normal _ _ _ Hinit) as ((origin & out & Hpts & Hf & _ & _ & Ht & _) & _).
    exists origin. rewrite Hpts. split; [reflexivity |].
    constructor.
    + destruct Hf as (_ & -> & _). rewrite Z.sub_diag.
      unfold total_seconds_of, Rdiv. ring.
    + eapply Forall_impl; [| exact Ht]. intros p [_ H]. exact H.
  - intros self ext poly f Hf. exact (new_ext_finite L self ext poly f Hf).
Qed.

(** C1, amended, on [Example.paused]. *)
Lemma regression_abscissa_witness :
  GpxFile.init Ref.libs Example.paused = inr Example.paused_file /\
  (forall nm poly,
      TrackPoint.lookup nm (GpxFile.polyfit Example.paused_file) = Some poly ->
      exists s,
        TrackPoint.lookup nm (GpxFile.values Example.paused_file) = Some s /\
        np_polyfit Ref.libs (TrackPoint.xs s) (TrackPoint.ys s) 3 = inr poly /\
        TrackPoint.xs s = channel_time_fractions nm (GpxFile.pts Example.paused_file) /\
        Forall2 (fun e y => py_float Ref.libs (string_of e) = inr y)
          (channel_raw nm (GpxFile.pts Example.paused_file)) (TrackPoint.ys s)) /\
  (exists origin,
      hd_error (GpxFile.pts Example.paused_file) = Some origin /\
      Forall (fun p => TrackPoint.nelapsed p =
                       total_seconds_of (TrackPoint.time p - TrackPoint.time origin)
                       / GpxFile.total_seconds Example.paused_file)
        (GpxFile.pts Example.paused_file)) /\
  (forall self ext poly f,
      TrackPoint.ndistance self = Fin f ->
      TrackPoint.new_ext Ref.libs self ext poly
      = inr (synthesized Ref.libs f (ext, poly))).
Proof.
  split; [exact init_paused |].
  exact (regression_abscissa Ref.libs Example.paused Example.paused_file init_paused).
Defined.

(** ** The number of samples of a channel (C2) *)

(** C2, as stated, fails: on [Example.paused] the heart rate appears on
    three points only, the construction succeeds and [main] prints a
    fused track. *)
Lemma sample_count_counterexample :
  GpxFile.init Ref.libs Example.paused = inr Example.paused_file /\
  TrackPoint.lookup "ns3:hr" (GpxFile.values Example.paused_file)
  = Some (TrackPoint.Samples [0; 1 / 2; 1] [100; 110; 120]) /\
  TrackPoint.lookup "ns3:hr" (GpxFile.polyfit Example.paused_file)
  = Some Example.hr_fit /\
  main Ref.libs Example.paused Example.reference = inr Example.fused.
Proof.
  split; [exact init_paused |]. split; [reflexivity |]. split; [reflexivity |].
  exact main_fused.
Qed.

(** C2, amended.  The channel fits are built by one call of
    [np.polyfit] per channel on all the samples of the channel, however
    few: construction succeeds when every call returns; when a call
    raises, construction raises the same exception and [main] prints
    nothing. *)
Theorem sample_count (L : PyLibs) (children : list node)
  (pts0 pts1 : list TrackPoint.t) (ts td : R)
  (values : TrackPoint.dict TrackPoint.samples) :
  map_result (TrackPoint.init L) (tags children) = inr pts0 ->
  GpxFile.normalize pts0 = inr (pts1, ts, td) ->
  GpxFile.collect_values L pts1 = inr values ->
  (forall polyfit,
      Forall2 (fun kv kc =>
                 fst kc = fst kv /\
                 np_polyfit L (TrackPoint.xs (snd kv)) (TrackPoint.ys (snd kv)) 3
                 = inr (snd kc)) values polyfit ->
      GpxFile.init L children =
      inr (GpxFile.Build children pts1 ts td values polyfit
             (sum (map TrackPoint.calc_still_time pts1)))) /\
  (forall e,
      GpxFile.make_polyfit L values = inl e ->
      Exists (fun kv =>
                np_polyfit L (TrackPoint.xs (snd kv)) (TrackPoint.ys (snd kv)) 3
                = inl e) values /\
      GpxFile.init L children = inl e /\
      forall replace, main L children replace = inl e).
Proof.
  intros Hparse Hnorm Hcol. split.
  - intros polyfit Hfits.
    apply (init_stages L children pts0 pts1 ts td _ values polyfit Hparse Hnorm Hcol);
      [| reflexivity].
    unfold GpxFile.make_polyfit. apply Forall2_map_result.
    eapply Forall2_impl; [| exact Hfits].
    intros [k s] [k' c] [Hk Hc]. simpl in *. subst k'. rewrite Hc. reflexivity.
  - intros e He.
    assert (Hinit : GpxFile.init L children = inl e).
    { unfold GpxFile.init, GpxFile.init_pts.
      rewrite Hparse; simpl. rewrite Hnorm; simpl. rewrite Hcol; simpl.
      rewrite He. reflexivity. }
    split; [| split; [exact Hinit |]].
    + clear - He. unfold GpxFile.make_polyfit in He.
      induction values as [| [k s] values IH]; simpl in He; [discriminate |].
      destruct (np_polyfit L (TrackPoint.xs s) (TrackPoint.ys s) 3) as [e' | c] eqn:E;
        simpl in He.
      * injection He as ->. left. exact E.
      * right. apply IH.
        destruct (map_result _ values) as [e' | l]; simpl in He;
          [exact He | discriminate].
    + intros replace. unfold main. rewrite Hinit. reflexivity.
Qed.

(** C2, amended, on [Example.paused]. *)
Lemma sample_count_witness :
  (map_result (TrackPoint.init Ref.libs) (tags Example.paused)
   = inr Example.paused_parsed /\
   GpxFile.normalize Example.paused_parsed
   = inr (Example.paused_pts, 20, 6371 * PI / 180) /\
   GpxFile.collect_values Ref.libs Example.paused_pts = inr Example.paused_values) /\
  GpxFile.init Ref.libs Example.paused =
  inr (GpxFile.Build Example.paused Example.paused_pts 20 (6371 * PI / 180)
         Example.paused_values Example.paused_polyfit
         (sum (map TrackPoint.calc_still_time Example.paused_pts))).
Proof.
  split.
  - split; [exact paused_parse |]. split; [exact paused_normalize | exact paused_collect].
  - apply (proj1 (sample_count Ref.libs Example.paused _ _ _ _ _
                    paused_parse paused_normalize paused_collect)).
    repeat constructor.
Defined.

(** * Further properties of the code *)

(** ** The distance of [adjust_distance] *)

Lemma haversine_a_sym (lat1 lon1 lat2 lon2 : R) :
  TrackPoint.haversine_a lat1 lon1 lat2 lon2 =
  TrackPoint.haversine_a lat2 lon2 lat1 lon1.
Proof.
  unfold TrackPoint.haversine_a.
  replace ((lat1 - lat2) * PI / 180 / 2) with (- ((lat2 - lat1) * PI / 180 / 2))
    by field.
  replace ((lon1 - lon2) * PI / 180 / 2) with (- ((lon2 - lon1) * PI / 180 / 2))
    by field.
  rewrite !sin_neg. ring.
Qed.


(** X1.  The distance [adjust_distance] stores does not depend on the
    direction of travel: it is the same from [last] to [self] as from
    [self] to [last]. *)
Theorem adjust_distance_symmetric (p q : TrackPoint.t) :
  TrackPoint.distance (TrackPoint.adjust_distance p q) =
  TrackPoint.distance (TrackPoint.adjust_distance q p).
Proof.
  rewrite !adjust_distance_eq. cbn [TrackPoint.distance TrackPoint.with_distance].
  unfold great_circle. rewrite (haversine_a_sym (TrackPoint.lat q)). reflexivity.
Qed.




(** ** Time fractions and durations *)


Lemma total_seconds_of_le (a b : Z) :
  (a <= b)%Z -> total_seconds_of a <= total_seconds_of b.
Proof. intros H. unfold total_seconds_of. apply IZR_le in H. lra. Qed.

Lemma StronglySorted_map {A B : Type} (R1 : A -> A -> Prop) (R2 : B -> B -> Prop)
  (f : A -> B) (l : list A) :
  (forall x y, R1 x y -> R2 (f x) (f y)) ->
  StronglySorted R1 l -> StronglySorted R2 (map f l).
Proof.
  intros H Hs. induction Hs as [| a l Hs IH Ha]; simpl; constructor; auto.
  rewrite Forall_map. eapply Forall_impl; [| exact Ha]. intros b Hb. auto.
Qed.

(** Every point of a normalized track, the first included, has the
    time fraction [adjust_time] computes. *)
Lemma normal_time_fractions (pts : list TrackPoint.t) (ts td : R) :
  normal pts ts td ->
  exists origin out,
    pts = origin :: out /\
    Forall (fun p => TrackPoint.nelapsed p =
                     total_seconds_of (TrackPoint.time p - TrackPoint.time origin) / ts)
      pts.
Proof.
  intros (origin & out & Hpts & Hf & _ & _ & Ht & _).
  exists origin, out. split; [exact Hpts |]. rewrite Hpts. constructor.
  - destruct Hf as (_ & -> & _). rewrite Z.sub_diag.
    unfold total_seconds_of, Rdiv. ring.
  - eapply Forall_impl; [| exact Ht]. intros p [_ H]. exact H.
Qed.






(** X4.  In a track that was constructed with at least two points, the
    time fraction of the first point is 0 and that of the last point is
    1; when the timestamps never decrease along the track, neither do
    the time fractions. *)
Theorem time_fraction_monotone (L : PyLibs) (children : list node) (g : GpxFile.t) :
  GpxFile.init L children = inr g ->
  (2 <= List.length (GpxFile.pts g))%nat ->
  hd 1 (map TrackPoint.nelapsed (GpxFile.pts g)) = 0 /\
  last (map TrackPoint.nelapsed (GpxFile.pts g)) 0 = 1 /\
  (StronglySorted Z.le (map TrackPoint.time (GpxFile.pts g)) ->
   StronglySorted Rle (map TrackPoint.nelapsed (GpxFile.pts g))).
Proof.
  intros Hinit Hlen.
  destruct (init_normal _ _ _ Hinit) as (Hn & _).
  destruct (normal_time_fractions _ _ _ Hn) as (o & out' & Ho & Hall).
  destruct Hn as (origin & out & Hpts & Hf & _ & _ & Ht & _ & Hts & Hne).
  rewrite Hpts in Ho. injection Ho as <- <-.
  rewrite Hpts in *.
  destruct out as [| b l]; [simpl in Hlen; lia |].
  assert (Hts0 : GpxFile.total_seconds g <> 0) by (apply Hne; discriminate).
  assert (Hlast : TrackPoint.nelapsed (last (b :: l) origin) = 1).
  { pose proof (last_In b l origin) as Hin.
    rewrite Forall_forall in Ht. destruct (Ht _ Hin) as [_ ->].
    rewrite <- Hts. field. exact Hts0. }
  split; [| split].
  - simpl. destruct Hf as (_ & H & _). exact H.
  - simpl map. rewrite last_cons. change (TrackPoint.nelapsed b :: map TrackPoint.nelapsed l)
      with (map TrackPoint.nelapsed (b :: l)).
    rewrite last_map. exact Hlast.
  - intros Hs.
    assert (Hpos : 0 < GpxFile.total_seconds g).
    { assert (0 <= GpxFile.total_seconds g); [| lra].
      rewrite Hts. replace 0 with (total_seconds_of 0) by (unfold total_seconds_of; lra).
      apply total_seconds_of_le.
      simpl map in Hs. apply StronglySorted_inv in Hs. destruct Hs as [_ Ha].
      rewrite Forall_forall in Ha.
      assert (TrackPoint.time origin <= TrackPoint.time (last (b :: l) origin))%Z; [| lia].
      apply Ha. change (TrackPoint.time b :: map TrackPoint.time l)
        with (map TrackPoint.time (b :: l)).
      apply in_map. apply last_In. }
    rewrite (map_Forall_eq _ _ _ Hall), <- (map_map TrackPoint.time
      (fun t => total_seconds_of (t - TrackPoint.time origin) / GpxFile.total_seconds g)).
    apply (StronglySorted_map Z.le); [| exact Hs].
    intros x y Hxy. unfold Rdiv. apply Rmult_le_compat_r.
    + left. apply Rinv_0_lt_compat. exact Hpos.
    + apply total_seconds_of_le. lia.
Qed.

(** X4 on [Example.paused]. *)
Lemma time_fraction_monotone_witness :
  (GpxFile.init Ref.libs Example.paused = inr Example.paused_file /\
   (2 <= List.length (GpxFile.pts Example.paused_file))%nat) /\
  hd 1 (map TrackPoint.nelapsed (GpxFile.pts Example.paused_file)) = 0 /\
  last (map TrackPoint.nelapsed (GpxFile.pts Example.paused_file)) 0 = 1 /\
  (StronglySorted Z.le (map TrackPoint.time (GpxFile.pts Example.paused_file)) ->
   StronglySorted Rle (map TrackPoint.nelapsed (GpxFile.pts Example.paused_file))).
Proof.
  assert (H1 : GpxFile.init Ref.libs Example.paused = inr Example.paused_file)
    by exact init_paused.
  assert (H2 : (2 <= List.length (GpxFile.pts Example.paused_file))%nat)
    by (simpl; lia).
  split; [auto |].
  exact (time_fraction_monotone Ref.libs Example.paused Example.paused_file H1 H2).
Defined.






(** ** The reconstructed timestamps *)


Lemma Forall2_Forall {A B : Type} (P : A -> B -> Prop) (Q : A -> Prop) (Q' : B -> Prop)
  (l : list A) (l' : list B) :
  (forall a b, P a b -> Q a -> Q' b) ->
  Forall2 P l l' -> Forall Q l -> Forall Q' l'.
Proof.
  intros H H2. induction H2 as [| a b l l' Hab _ IH]; intros HQ; constructor.
  - apply (H a b Hab). exact (Forall_inv HQ).
  - apply IH. exact (Forall_inv_tail HQ).
Qed.


(** What [GpxFile.fix_time] after [GpxFile.add_extensions] stores as the
    time of each point. *)
Lemma fused_times (L : PyLibs) (original r0 r1 r2 : GpxFile.t) (start : Z) :
  GpxFile.start_time original = inr start ->
  GpxFile.add_extensions L r0 original = inr r1 ->
  GpxFile.fix_time L r1 original = inr r2 ->
  Forall2 (fun p p' =>
             exists f,
               TrackPoint.ndistance p = Fin f /\
               TrackPoint.time p' =
               (start + rint ((GpxFile.total_seconds original
                               - GpxFile.total_still_time original) * f * 1000000))%Z)
    (GpxFile.pts r0) (GpxFile.pts r2).
Proof.
  intros Hstart Hadd Hfix.
  unfold GpxFile.add_extensions in Hadd. inv_bind Hadd. injection Hadd as <-.
  unfold GpxFile.fix_time in Hfix. simpl in Hfix. inv_bind Hfix. injection Hfix as <-.
  simpl. apply map_result_Forall2 in Ha, Ha0.
  eapply Forall2_impl; [| exact (Forall2_compose _ _ _ _ _ Ha Ha0)].
  intros p p' (q & Hq & Hp'). simpl in Hq, Hp'.
  destruct (add_extensions_fields _ _ _ _ Hq) as [n ->].
  rewrite Hstart in Hp'. simpl in Hp'.
  destruct (fix_time_time _ _ _ _ _ Hp') as (f & Hf & Ht).
  exists f. split; [exact Hf | exact Ht].
Qed.





(** ** The dictionary of samples *)

Lemma lookup_None_keys {V : Type} (k : string) (d : TrackPoint.dict V) :
  TrackPoint.lookup k d = None -> ~ In k (keys d).
Proof.
  unfold TrackPoint.lookup, keys. induction d as [| [k' v] d IH]; simpl; [tauto |].
  destruct (String.eqb k' k) eqn:E; [discriminate |].
  intros H [H' | H'].
  - subst k'. rewrite String.eqb_refl in E. discriminate.
  - exact (IH H H').
Qed.

Lemma lookup_keys {V : Type} (k : string) (d : TrackPoint.dict V) :
  In k (keys d) -> exists v, TrackPoint.lookup k d = Some v /\ In (k, v) d.
Proof.
  unfold TrackPoint.lookup, keys. induction d as [| [k' v] d IH]; simpl; [tauto |].
  intros H. destruct (String.eqb k' k) eqn:E.
  - apply String.eqb_eq in E. subst k'. exists v. split; [reflexivity | left; reflexivity].
  - destruct H as [H | H]; [subst k'; rewrite String.eqb_refl in E; discriminate |].
    destruct (IH H) as (v' & Hv & Hin). exists v'. split; [exact Hv | right; exact Hin].
Qed.

Lemma keys_update {V : Type} (k : string) (f : V -> V) (d : TrackPoint.dict V) :
  keys (TrackPoint.update k f d) = keys d.
Proof.
  unfold keys. induction d as [| [k' v] d IH]; simpl; [reflexivity |].
  destruct (String.eqb k' k); simpl; [reflexivity | rewrite IH; reflexivity].
Qed.

Lemma update_update {V : Type} (k : string) (f g : V -> V) (d : TrackPoint.dict V) :
  TrackPoint.update k g (TrackPoint.update k f d)
  = TrackPoint.update k (fun v => g (f v)) d.
Proof.
  induction d as [| [k' v] d IH]; simpl; [reflexivity |].
  destruct (String.eqb k' k) eqn:E; simpl; rewrite E; [reflexivity |].
  rewrite IH. reflexivity.
Qed.

Lemma update_new {V : Type} (k : string) (f : V -> V) (v : V) (d : TrackPoint.dict V) :
  ~ In k (keys d) ->
  TrackPoint.update k f (TrackPoint.insert_new k v d) = d ++ [(k, f v)].
Proof.
  unfold keys, TrackPoint.insert_new. induction d as [| [k' v'] d IH]; simpl; intros H.
  - rewrite String.eqb_refl. reflexivity.
  - destruct (String.eqb k' k) eqn:E.
    + apply String.eqb_eq in E. subst k'. tauto.
    + rewrite IH by tauto. reflexivity.
Qed.

Lemma update_Forall {V : Type} (P : V -> Prop) (k : string) (f : V -> V)
  (d : TrackPoint.dict V) :
  (forall v, P v -> P (f v)) ->
  Forall (fun kv => P (snd kv)) d ->
  Forall (fun kv => P (snd kv)) (TrackPoint.update k f d).
Proof.
  intros Hf. induction 1 as [| [k' v] d Hv Hd IH]; simpl; [constructor |].
  simpl in Hv. destruct (String.eqb k' k); constructor; simpl; auto.
Qed.

(** One sample more keeps the dictionary in shape: keys without
    repetition, entries balanced. *)
Lemma append_fit_value_shape (L : PyLibs) (p : TrackPoint.t)
  (values values' : TrackPoint.dict TrackPoint.samples) (ext : node) :
  NoDup (keys values) /\ Forall (fun kv => balanced (snd kv)) values ->
  TrackPoint.append_fit_value L p values ext = inr values' ->
  NoDup (keys values') /\ Forall (fun kv => balanced (snd kv)) values'.
Proof.
  intros [Hk Hb] H. unfold TrackPoint.append_fit_value in H.
  destruct (name_of ext) as [nm |]; [| discriminate].
  cbv zeta in H. inv_bind H. injection H as <-.
  rewrite update_update.
  destruct (TrackPoint.lookup nm values) as [s |] eqn:El.
  - rewrite keys_update. split; [exact Hk |].
    apply update_Forall; [| exact Hb].
    intros v [Hv _]. split; simpl.
    + rewrite !length_app, Hv. reflexivity.
    + intros E. apply app_eq_nil in E. destruct E as [_ E]. discriminate.
  - pose proof (lookup_None_keys _ _ El) as Hnot.
    rewrite (update_new _ _ _ _ Hnot). split.
    + unfold keys. rewrite map_app. simpl. apply NoDup_app.
      * exact Hk.
      * constructor; [simpl; tauto | constructor].
      * intros k Hin [<- | []]. exact (Hnot Hin).
    + apply Forall_app. split; [exact Hb |].
      constructor; [| constructor]. split; simpl; [reflexivity | discriminate].
Qed.

Lemma collect_values_shape (L : PyLibs) (pts : list TrackPoint.t)
  (values : TrackPoint.dict TrackPoint.samples) :
  GpxFile.collect_values L pts = inr values ->
  NoDup (keys values) /\ Forall (fun kv => balanced (snd kv)) values.
Proof.
  intros H. unfold GpxFile.collect_values in H.
  refine (for_each_inv _
            (fun _ s => NoDup (keys s) /\ Forall (fun kv => balanced (snd kv)) s)
            _ pts [] [] values _ H).
  - intros done s p s' Hs Hp. unfold TrackPoint.append_fit_values in Hp.
    refine (for_each_inv _
              (fun _ s => NoDup (keys s) /\ Forall (fun kv => balanced (snd kv)) s)
              _ (TrackPoint.extensions p) [] s s' Hs Hp).
    intros done' v e v' Hv He. exact (append_fit_value_shape _ _ _ _ _ Hv He).
  - split; constructor.
Qed.

Lemma make_polyfit_keys (L : PyLibs) (values : TrackPoint.dict TrackPoint.samples)
  (polyfit : TrackPoint.dict (list R)) :
  GpxFile.make_polyfit L values = inr polyfit -> keys polyfit = keys values.
Proof.
  intros H. unfold GpxFile.make_polyfit in H. apply map_result_Forall2 in H.
  unfold keys. induction H as [| kv kc l l' Hk _ IH]; simpl; [reflexivity |].
  inv_bind Hk. injection Hk as <-. simpl. rewrite IH. reflexivity.
Qed.

(** X8.  The dictionary of samples of a constructed track has one entry
    for every channel name that occurs on a point, and no other; each
    entry has as many abscissae as ordinates, at least one, so that
    [np.polyfit] is never called on empty or mismatched arrays; the
    mapping of fitted polynomials has the same keys in the same order. *)
Theorem values_shape (L : PyLibs) (children : list node) (g : GpxFile.t) :
  GpxFile.init L children = inr g ->
  NoDup (keys (GpxFile.values g)) /\
  Forall (fun kv => balanced (snd kv)) (GpxFile.values g) /\
  keys (GpxFile.polyfit g) = keys (GpxFile.values g) /\
  forall nm, In nm (keys (GpxFile.values g)) <-> channel_raw nm (GpxFile.pts g) <> [].
Proof.
  intros Hinit.
  destruct (init_structure _ _ _ Hinit) as (_ & _ & _ & Hcol & Hfit & _).
  destruct (collect_values_shape _ _ _ Hcol) as [Hk Hb].
  split; [exact Hk |]. split; [exact Hb |].
  split; [exact (make_polyfit_keys _ _ _ Hfit) |].
  intros nm. pose proof (collect_values_collected _ _ _ Hcol nm) as Hc.
  destruct (filter_events nm (GpxFile.pts g)) as [Hx Hr].
  split.
  - intros Hin Hraw. destruct (lookup_keys _ _ Hin) as (s & Hs & Hin').
    rewrite Hs in Hc. destruct Hc as [Hxs _].
    rewrite Forall_forall in Hb. destruct (Hb _ Hin') as [_ Hne]. simpl in Hne.
    apply Hne. rewrite Hxs. rewrite <- Hr in Hraw.
    apply map_eq_nil in Hraw. rewrite Hraw. reflexivity.
  - intros Hraw. destruct (TrackPoint.lookup nm (GpxFile.values g)) as [s |] eqn:El.
    + unfold TrackPoint.lookup in El.
      destruct (List.find (fun kv => String.eqb (fst kv) nm) (GpxFile.values g))
        as [[k v] |] eqn:Ef; [| discriminate].
      apply find_some in Ef. destruct Ef as [Hin E]. simpl in E.
      apply String.eqb_eq in E. subst k.
      unfold keys. change nm with (fst (nm, v)). apply in_map. exact Hin.
    + exfalso. apply Hraw. rewrite <- Hr, Hc. reflexivity.
Qed.

(** X8 on [Example.paused]. *)
Lemma values_shape_witness :
  GpxFile.init Ref.libs Example.paused = inr Example.paused_file /\
  NoDup (keys (GpxFile.values Example.paused_file)) /\
  Forall (fun kv => balanced (snd kv)) (GpxFile.values Example.paused_file) /\
  keys (GpxFile.polyfit Example.paused_file) = keys (GpxFile.values Example.paused_file) /\
  forall nm, In nm (keys (GpxFile.values Example.paused_file)) <->
             channel_raw nm (GpxFile.pts Example.paused_file) <> [].
Proof.
  split; [exact init_paused |].
  exact (values_shape Ref.libs Example.paused Example.paused_file init_paused).
Defined.

(** ** The document *)

Lemma rebuild_tags (children : list node) :
  GpxFile.rebuild children (tags children) = children.
Proof.
  induction children as [| c cs IH]; simpl; [reflexivity |].
  destruct (is_Tag c); simpl; rewrite IH; reflexivity.
Qed.

(** X9.  Constructing a [GpxFile] leaves its document as it was loaded:
    the point elements of the points are the elements of the track
    segment, in order. *)
Theorem construction_keeps_document (L : PyLibs) (children : list node) (g : GpxFile.t) :
  GpxFile.init L children = inr g ->
  map TrackPoint.pt (GpxFile.pts g) = tags children /\
  GpxFile.trkseg g = children.
Proof.
  intros Hinit.
  destruct (init_normal _ _ _ Hinit) as (_ & Hpt & _).
  destruct (init_structure _ _ _ Hinit) as (_ & _ & _ & _ & _ & _ & Hc).
  split; [exact Hpt |].
  unfold GpxFile.trkseg. rewrite Hpt, Hc. apply rebuild_tags.
Qed.

(** X9 on [Example.reference], whose segment has strings between the
    point elements. *)
Lemma construction_keeps_document_witness :
  GpxFile.init Ref.libs Example.reference = inr Example.reference_file /\
  map TrackPoint.pt (GpxFile.pts Example.reference_file) = tags Example.reference /\
  GpxFile.trkseg Example.reference_file = Example.reference.
Proof.
  split; [exact init_reference |].
  exact (construction_keeps_document Ref.libs Example.reference Example.reference_file
           init_reference).
Defined.

Lemma same_shell_refl (c : node) : same_shell c c.
Proof. destruct c; simpl; auto. Qed.

Lemma same_shell_trans (a b c : node) :
  same_shell a b -> same_shell b c -> same_shell a c.
Proof.
  destruct a, b, c; simpl; try tauto.
  - intros [-> ->] [-> ->]. auto.
  - intros -> ->. reflexivity.
Qed.

Lemma same_shell_attr (c c' : node) (key : string) :
  same_shell c c' -> get_attr key c' = get_attr key c.
Proof.
  destruct c, c'; simpl; try tauto. intros [-> ->]. reflexivity.
Qed.

Lemma replaced_or_appended_shell (new pt : node) :
  same_shell pt (replaced_or_appended new pt).
Proof.
  unfold replaced_or_appended, replace_with, append.
  destruct pt as [nm a cs | s]; simpl; [| reflexivity].
  destruct (first_update (replace_from "extensions" new) cs); simpl; auto.
Qed.

Lemma set_string_shell (nm s : string) (n n' : node) :
  set_string nm s n = inr n' -> same_shell n n'.
Proof.
  unfold set_string. destruct n as [nm' a cs | s']; [| discriminate].
  destruct (first_update (set_string_from nm s) cs); [| discriminate].
  intros H. injection H as <-. simpl. auto.
Qed.

Lemma add_extensions_shell (L : PyLibs) (p p' : TrackPoint.t)
  (polyfit : TrackPoint.dict (list R)) :
  TrackPoint.add_extensions L p polyfit = inr p' ->
  same_shell (TrackPoint.pt p) (TrackPoint.pt p').
Proof.
  intros H.
  destruct (map_result (fun kv => TrackPoint.new_ext L p (fst kv) (snd kv)) polyfit)
    as [e | channels] eqn:Hm.
  - unfold TrackPoint.add_extensions in H. rewrite Hm in H. discriminate.
  - rewrite (add_extensions_pt _ _ _ _ Hm) in H. injection H as <-. simpl.
    apply replaced_or_appended_shell.
Qed.

Lemma fix_time_shell (L : PyLibs) (p p' : TrackPoint.t) (start : Z) (eff : R) :
  TrackPoint.fix_time L p start eff = inr p' ->
  same_shell (TrackPoint.pt p) (TrackPoint.pt p').
Proof.
  intros H. unfold TrackPoint.fix_time in H. inv_bind H. cbv zeta in H.
  inv_bind H. injection H as <-. simpl.
  apply set_string_shell in Ha0. exact Ha0.
Qed.

Lemma rebuild_shell (children : list node) :
  forall l,
    Forall2 same_shell (tags children) l ->
    Forall2 same_shell children (GpxFile.rebuild children l).
Proof.
  induction children as [| c cs IH]; intros l H; simpl; [constructor |].
  simpl in H. destruct (is_Tag c).
  - inversion H as [| x y l1 l2 Hxy Hl E1 E2]. subst.
    constructor; [exact Hxy | exact (IH _ Hl)].
  - constructor; [apply same_shell_refl | exact (IH _ H)].
Qed.

Lemma Forall2_map_r {A B C : Type} (P : A -> C -> Prop) (f : B -> C)
  (l : list A) (l' : list B) :
  Forall2 (fun a b => P a (f b)) l l' -> Forall2 P l (map f l').
Proof. induction 1; simpl; constructor; auto. Qed.

Lemma Forall2_map_l {A B C : Type} (P : C -> B -> Prop) (f : A -> C)
  (l : list A) (l' : list B) :
  Forall2 (fun a b => P (f a) b) l l' -> Forall2 P (map f l) l'.
Proof. induction 1; simpl; constructor; auto. Qed.

(** The point elements after synthesis and time reconstruction. *)
Lemma fused_shells (L : PyLibs) (original r0 r1 r2 : GpxFile.t) :
  GpxFile.add_extensions L r0 original = inr r1 ->
  GpxFile.fix_time L r1 original = inr r2 ->
  GpxFile.children r2 = GpxFile.children r0 /\
  Forall2 same_shell (map TrackPoint.pt (GpxFile.pts r0))
    (map TrackPoint.pt (GpxFile.pts r2)).
Proof.
  intros Hadd Hfix.
  unfold GpxFile.add_extensions in Hadd. inv_bind Hadd. injection Hadd as <-.
  unfold GpxFile.fix_time in Hfix. simpl in Hfix. inv_bind Hfix. injection Hfix as <-.
  simpl. split; [reflexivity |].
  apply map_result_Forall2 in Ha, Ha0.
  apply Forall2_map_l, Forall2_map_r.
  eapply Forall2_impl; [| exact (Forall2_compose _ _ _ _ _ Ha Ha0)].
  intros p p' (q & Hq & Hp'). simpl in Hq, Hp'.
  apply add_extensions_shell in Hq.
  inv_bind Hp'. apply fix_time_shell in Hp'.
  exact (same_shell_trans _ _ _ Hq Hp').
Qed.

(** X10.  The track segment that [main] prints has the children of the
    replacement's segment, one for one and in order: the same strings
    between the elements, and point elements with the names and the
    attributes, so the latitude and longitude, of the replacement. *)
Theorem output_keeps_geometry (L : PyLibs) (gpx replace out : list node) :
  main L gpx replace = inr out ->
  Forall2 same_shell replace out /\
  Forall2 (fun c c' => forall key, get_attr key c' = get_attr key c) replace out /\
  List.length out = List.length replace.
Proof.
  intros H. unfold main in H.
  inv_bind H. inv_bind H. inv_bind H. inv_bind H. injection H as <-.
  destruct (fused_shells _ _ _ _ _ Ha1 Ha2) as [Hc Hs].
  destruct (init_normal _ _ _ Ha0) as (_ & Hpt & _).
  destruct (init_structure _ _ _ Ha0) as (_ & _ & _ & _ & _ & _ & Hch).
  assert (Hall : Forall2 same_shell replace (GpxFile.replace_gps a a2)).
  { unfold GpxFile.replace_gps, GpxFile.trkseg. rewrite Hc, Hch.
    apply rebuild_shell. rewrite <- Hpt. exact Hs. }
  split; [exact Hall |]. split.
  - eapply Forall2_impl; [| exact Hall].
    intros c c' Hcc key. apply same_shell_attr. exact Hcc.
  - symmetry. exact (Forall2_length Hall).
Qed.

(** X10 on [Example.paused] and [Example.reference]. *)
Lemma output_keeps_geometry_witness :
  main Ref.libs Example.paused Example.reference = inr Example.fused /\
  Forall2 same_shell Example.reference Example.fused /\
  Forall2 (fun c c' => forall key, get_attr key c' = get_attr key c)
    Example.reference Example.fused /\
  List.length Example.fused = List.length Example.reference.
Proof.
  split; [exact main_fused |].
  exact (output_keeps_geometry Ref.libs Example.paused Example.reference Example.fused
           main_fused).
Defined.

(** ** Point elements *)

Lemma TrackPoint_init_inv (L : PyLibs) (pt : node) (p : TrackPoint.t) :
  TrackPoint.init L pt = inr p ->
  exists lat_s lon_s time_e ele_e,
    get_attr "lat" pt = inr lat_s /\ float_of_str L lat_s = inr (TrackPoint.lat p) /\
    get_attr "lon" pt = inr lon_s /\ float_of_str L lon_s = inr (TrackPoint.lon p) /\
    find "time" pt = Some time_e /\
    parse_time L (string_of time_e) = inr (TrackPoint.time p) /\
    find "ele" pt = Some ele_e /\
    py_float L (string_of ele_e) = inr (TrackPoint.ele p).
Proof.
  intros H. unfold TrackPoint.init in H.
  inv_bind H. inv_bind H. inv_bind H. inv_bind H. inv_bind H. inv_bind H.
  inv_bind H. inv_bind H. injection H as <-. simpl.
  destruct (find "time" pt) as [te |]; [| discriminate]. injection Ha3 as ->.
  destruct (find "ele" pt) as [ee |]; [| discriminate]. injection Ha5 as ->.
  exists a, a1, a3, a5. repeat split; assumption.
Qed.

(** Every point of a constructed track was built from its element, and
    the loops of the construction left alone what was read from it. *)
Lemma init_points_parsed (L : PyLibs) (children : list node) (g : GpxFile.t) :
  GpxFile.init L children = inr g ->
  Forall2 (fun c p => exists p0, TrackPoint.init L c = inr p0 /\ same_point p0 p)
    (tags children) (GpxFile.pts g).
Proof.
  intros Hinit.
  destruct (init_structure _ _ _ Hinit) as (pts0 & Hparse & Hnorm & _).
  destruct (parsed_points _ _ _ Hparse) as (Hfresh & _).
  destruct (normalize_normal _ _ _ _ Hfresh Hnorm) as [_ Hsame].
  apply map_result_Forall2 in Hparse.
  eapply Forall2_impl; [| exact (Forall2_compose _ _ _ _ _ Hparse Hsame)].
  intros c p (p0 & H0 & Hp). exists p0. split; assumption.
Qed.

(** X11.  Every point of a constructed track comes from a point element
    that has the attributes [lat] and [lon] and descendants named [time]
    and [ele]; its coordinates, timestamp and elevation are what
    [float] and [dateutil] read there, whatever the loops of the
    construction computed since, and its channel elements are those of
    the element. *)
Theorem points_as_read (L : PyLibs) (children : list node) (g : GpxFile.t) :
  GpxFile.init L children = inr g ->
  Forall2 (fun c p =>
             TrackPoint.pt p = c /\
             TrackPoint.extensions p = TrackPoint.parse_extensions c /\
             exists lat_s lon_s time_e ele_e,
               get_attr "lat" c = inr lat_s /\
               float_of_str L lat_s = inr (TrackPoint.lat p) /\
               get_attr "lon" c = inr lon_s /\
               float_of_str L lon_s = inr (TrackPoint.lon p) /\
               find "time" c = Some time_e /\
               parse_time L (string_of time_e) = inr (TrackPoint.time p) /\
               find "ele" c = Some ele_e /\
               py_float L (string_of ele_e) = inr (TrackPoint.ele p))
    (tags children) (GpxFile.pts g).
Proof.
  intros Hinit. eapply Forall2_impl; [| exact (init_points_parsed _ _ _ Hinit)].
  intros c p (p0 & H0 & Hpt & Hlat & Hlon & Htime & Hele & Hext).
  destruct (TrackPoint_init_fresh _ _ _ H0) as (_ & Hpt0 & Hext0).
  split; [congruence |]. split; [congruence |].
  rewrite Hlat, Hlon, Htime, Hele. exact (TrackPoint_init_inv _ _ _ H0).
Qed.

(** X11 on [Example.paused]. *)
Lemma points_as_read_witness :
  GpxFile.init Ref.libs Example.paused = inr Example.paused_file /\
  Forall2 (fun c p =>
             TrackPoint.pt p = c /\
             TrackPoint.extensions p = TrackPoint.parse_extensions c /\
             exists lat_s lon_s time_e ele_e,
               get_attr "lat" c = inr lat_s /\
               float_of_str Ref.libs lat_s = inr (TrackPoint.lat p) /\
               get_attr "lon" c = inr lon_s /\
               float_of_str Ref.libs lon_s = inr (TrackPoint.lon p) /\
               find "time" c = Some time_e /\
               parse_time Ref.libs (string_of time_e) = inr (TrackPoint.time p) /\
               find "ele" c = Some ele_e /\
               py_float Ref.libs (string_of ele_e) = inr (TrackPoint.ele p))
    (tags Example.paused) (GpxFile.pts Example.paused_file).
Proof.
  split; [exact init_paused |].
  exact (points_as_read Ref.libs Example.paused Example.paused_file init_paused).
Defined.

(** ** Synthesized channel elements *)

Lemma upto4_prefix (s : string) : upto4 ("ns3:" ++ s) = "ns3:"%string.
Proof. unfold upto4. simpl. destruct s; reflexivity. Qed.

Lemma prefixed_prefix (ext : string) : upto4 (prefixed ext) = "ns3:"%string.
Proof.
  unfold prefixed. destruct (String.eqb (upto4 ext) "ns3:") eqn:E.
  - apply String.eqb_eq. exact E.
  - apply upto4_prefix.
Qed.

Lemma new_ext_name (L : PyLibs) (self : TrackPoint.t) (ext : string) (poly : list R)
  (c : node) :
  TrackPoint.new_ext L self ext poly = inr c ->
  exists text, c = Tag (prefixed ext) [] [NavigableString text].
Proof.
  intros H. unfold TrackPoint.new_ext in H. cbv zeta in H.
  inv_bind H. injection H as <-. exists a. unfold prefixed.
  destruct (String.eqb (upto4 ext) "ns3:"); reflexivity.
Qed.

(** X12.  Whatever the position fraction, when [add_extensions]
    returns, the point's [extensions] element is the new wrapper, with
    one element per channel of the mapping, in the order of the
    mapping; each is named after its channel with the prefix [ns3:],
    added unless the name has it, has no attributes and holds one
    string. *)
Theorem channel_names_prefixed (L : PyLibs) (self self' : TrackPoint.t)
  (polyfit : TrackPoint.dict (list R)) :
  TrackPoint.add_extensions L self polyfit = inr self' ->
  is_Tag (TrackPoint.pt self) = true ->
  exists channels,
    find "extensions" (TrackPoint.pt self') = Some (wrapper channels) /\
    Forall2 (fun kv c =>
               upto4 (prefixed (fst kv)) = "ns3:"%string /\
               prefixed (prefixed (fst kv)) = prefixed (fst kv) /\
               exists text, c = Tag (prefixed (fst kv)) [] [NavigableString text])
      polyfit channels.
Proof.
  intros H Htag.
  destruct (map_result (fun kv => TrackPoint.new_ext L self (fst kv) (snd kv)) polyfit)
    as [e | channels] eqn:Hm.
  - unfold TrackPoint.add_extensions in H. rewrite Hm in H. discriminate.
  - rewrite (add_extensions_pt _ _ _ _ Hm) in H. injection H as <-. simpl.
    exists channels. split; [exact (wrapper_found _ _ Htag) |].
    apply map_result_Forall2 in Hm.
    eapply Forall2_impl; [| exact Hm].
    intros kv c Hc. simpl in Hc.
    split; [apply prefixed_prefix |]. split.
    + unfold prefixed at 1. rewrite prefixed_prefix. reflexivity.
    + exact (new_ext_name _ _ _ _ _ Hc).
Qed.

(** X12 on a point at the position fraction 1/3, with a heart rate and a
    temperature channel. *)
Lemma channel_names_prefixed_witness :
  (TrackPoint.add_extensions Ref.libs Example.sample_point Example.sample_polyfit
   = inr (TrackPoint.with_pt
            (replaced_or_appended
               (wrapper (map (synthesized Ref.libs (1 / 3)) Example.sample_polyfit))
               (TrackPoint.pt Example.sample_point)) Example.sample_point) /\
   is_Tag (TrackPoint.pt Example.sample_point) = true) /\
  exists channels,
    find "extensions"
      (TrackPoint.pt
         (TrackPoint.with_pt
            (replaced_or_appended
               (wrapper (map (synthesized Ref.libs (1 / 3)) Example.sample_polyfit))
               (TrackPoint.pt Example.sample_point)) Example.sample_point))
    = Some (wrapper channels) /\
    Forall2 (fun kv c =>
               upto4 (prefixed (fst kv)) = "ns3:"%string /\
               prefixed (prefixed (fst kv)) = prefixed (fst kv) /\
               exists text, c = Tag (prefixed (fst kv)) [] [NavigableString text])
      Example.sample_polyfit channels.
Proof.
  assert (H1 : TrackPoint.add_extensions Ref.libs Example.sample_point
                 Example.sample_polyfit
               = inr (TrackPoint.with_pt
                        (replaced_or_appended
                           (wrapper (map (synthesized Ref.libs (1 / 3))
                                       Example.sample_polyfit))
                           (TrackPoint.pt Example.sample_point)) Example.sample_point))
    by (apply add_extensions_finite; reflexivity).
  assert (H2 : is_Tag (TrackPoint.pt Example.sample_point) = true) by reflexivity.
  split; [split; assumption |].
  exact (channel_names_prefixed Ref.libs Example.sample_point _ Example.sample_polyfit
           H1 H2).
Defined.

(** ** When fusion succeeds and when it fails *)

Lemma first_update_none {A B : Type} (f : A -> option A) (g : A -> option B)
  (cs : list A) :
  Forall (fun c => f c = None <-> g c = None) cs ->
  (first_update f cs = None <-> first_some g cs = None).
Proof.
  induction 1 as [| c cs [Hc1 Hc2] _ [IH1 IH2]]; simpl; [tauto |].
  destruct (f c) as [c' |] eqn:Ef, (g c) as [b |] eqn:Eg.
  - split; discriminate.
  - specialize (Hc2 eq_refl). discriminate.
  - specialize (Hc1 eq_refl). discriminate.
  - destruct (first_update f cs); simpl.
    + split; [discriminate |]. intros H. specialize (IH2 H). discriminate.
    + split; [intros _; apply IH1; reflexivity | reflexivity].
Qed.

(** [tag.nm.string = s] and [tag.nm.replace_with(new)] find a node to
    change exactly where [tag.find(nm)] finds one. *)
Lemma set_string_from_none (nm s : string) (n : node) :
  set_string_from nm s n = None <-> find_from nm n = None.
Proof.
  induction n as [s' | nm' a cs IH] using node_induction; simpl; [tauto |].
  destruct (String.eqb nm' nm); [split; discriminate |].
  pose proof (first_update_none _ _ _ IH) as [H1 H2].
  destruct (first_update (set_string_from nm s) cs); simpl.
  - split; [discriminate |]. intros H. specialize (H2 H). discriminate.
  - split; [intros _; apply H1; reflexivity | reflexivity].
Qed.







Lemma map_result_inl {A B : Type} (f : A -> result B) (l : list A) (e : exn) :
  map_result f l = inl e -> Exists (fun a => f a = inl e) l.
Proof.
  induction l as [| a l IH]; simpl; [discriminate |].
  intros H. destruct (f a) as [e' | b] eqn:Ef; simpl in H.
  - injection H as ->. left. exact Ef.
  - right. apply IH. destruct (map_result f l); simpl in H; [exact H | discriminate].
Qed.



Lemma new_ext_error (L : PyLibs) (self : TrackPoint.t) (ext : string) (poly : list R)
  (e : exn) :
  TrackPoint.new_ext L self ext poly = inl e ->
  e = ValueError /\ forall f, TrackPoint.ndistance self <> Fin f.
Proof.
  intros H. split.
  - unfold TrackPoint.new_ext in H. cbv zeta in H.
    destruct (String.eqb
                (from4 (if negb (String.eqb (upto4 ext) "ns3:")
                        then ("ns3:" ++ ext)%string else ext)) "atemp");
      [discriminate |].
    unfold poly1d in H.
    destruct (TrackPoint.ndistance self); [discriminate | |];
      destruct poly; cbv [bind int_round raise ret] in H; congruence.
  - intros f Hf. rewrite (new_ext_finite _ _ _ _ _ Hf) in H. discriminate.
Qed.

Lemma add_extensions_error (L : PyLibs) (self : TrackPoint.t)
  (polyfit : TrackPoint.dict (list R)) (e : exn) :
  TrackPoint.add_extensions L self polyfit = inl e ->
  e = ValueError /\ forall f, TrackPoint.ndistance self <> Fin f.
Proof.
  intros H.
  destruct (map_result (fun kv => TrackPoint.new_ext L self (fst kv) (snd kv)) polyfit)
    as [e' | channels] eqn:Hm.
  - unfold TrackPoint.add_extensions in H. rewrite Hm in H. simpl in H.
    injection H as ->. apply map_result_inl in Hm. apply Exists_exists in Hm.
    destruct Hm as (kv & _ & Hkv). exact (new_ext_error _ _ _ _ _ Hkv).
  - rewrite (add_extensions_pt _ _ _ _ Hm) in H. discriminate.
Qed.

Lemma fix_time_error (L : PyLibs) (self : TrackPoint.t) (start : Z) (eff : R) (e : exn) :
  TrackPoint.fix_time L self start eff = inl e ->
  match TrackPoint.ndistance self with
  | Fin _ => e = AttributeError
  | NaN => e = ValueError
  | Inf _ => e = ValueError \/ e = OverflowError
  end.
Proof.
  intros H. destruct (TrackPoint.ndistance self) as [f | | s] eqn:Hn.
  - rewrite (fix_time_finite L self start eff f _ Hn eq_refl) in H.
    unfold set_string in H. destruct (TrackPoint.pt self) as [nm a cs |].
    + destruct (first_update _ cs); cbv [bind ret raise] in H; congruence.
    + cbv [bind raise] in H. congruence.
  - unfold TrackPoint.fix_time in H. rewrite Hn in H.
    cbv [float_mul timedelta_seconds bind raise] in H. congruence.
  - unfold TrackPoint.fix_time in H. rewrite Hn in H.
    cbv [float_mul timedelta_seconds] in H.
    destruct (Req_dec_T eff 0); cbv [bind raise] in H; [left | right]; congruence.
Qed.




(** X15.  [main] prints nothing when the reference has two points or
    more and a total distance of 0: the position fraction of its second
    point is [nan], and synthesis or the construction of the timestamp
    raises [ValueError], unless writing the first point's timestamp
    raised [AttributeError] before. *)
Theorem coincident_reference_fails (L : PyLibs) (gpx replace : list node)
  (original r0 : GpxFile.t) :
  GpxFile.init L gpx = inr original ->
  GpxFile.init L replace = inr r0 ->
  (2 <= List.length (GpxFile.pts r0))%nat ->
  GpxFile.total_distance r0 = 0 ->
  exists e, main L gpx replace = inl e /\ (e = ValueError \/ e = AttributeError).
Proof.
  intros Hgpx Hrep Hlen Htd.
  destruct (init_normal _ _ _ Hgpx) as ((origin & out & Hpts & _) & _).
  assert (Hstart : GpxFile.start_time original = inr (TrackPoint.time origin))
    by (unfold GpxFile.start_time; rewrite Hpts; reflexivity).
  destruct (init_normal _ _ _ Hrep) as (Hn & _).
  rewrite Htd in Hn. pose proof (normal_zero_distance _ _ Hn) as Hnan.
  destruct Hn as (o & rest & Ho & Hf & _).
  assert (Hkind : Forall (fun p => TrackPoint.ndistance p = Fin 0 \/
                                   TrackPoint.ndistance p = NaN) (GpxFile.pts r0)).
  { rewrite Ho in *. simpl in Hnan. constructor.
    - left. destruct Hf as (_ & _ & _ & _ & H & _). exact H.
    - eapply Forall_impl; [| exact Hnan]. intros p Hp. right. exact Hp. }
  unfold main. rewrite Hgpx. cbn [bind]. rewrite Hrep. cbn [bind].
  destruct (GpxFile.add_extensions L r0 original) as [e | r1] eqn:Hadd; cbn [bind].
  - exists e. split; [reflexivity |]. left.
    unfold GpxFile.add_extensions in Hadd.
    destruct (map_result
                (fun p => TrackPoint.add_extensions L p (GpxFile.polyfit original))
                (GpxFile.pts r0)) as [e' | pts1] eqn:Hm; [| discriminate].
    simpl in Hadd. injection Hadd as ->.
    apply map_result_inl in Hm. apply Exists_exists in Hm.
    destruct Hm as (p & _ & Hp). apply add_extensions_error in Hp. tauto.
  - destruct (GpxFile.fix_time L r1 original) as [e | r2] eqn:Hfix; cbn [bind].
    + exists e. split; [reflexivity |].
      unfold GpxFile.add_extensions in Hadd. inv_bind Hadd. injection Hadd as <-.
      unfold GpxFile.fix_time in Hfix. simpl in Hfix.
      destruct (map_result
                  (fun p =>
                     origin_time <- GpxFile.start_time original ;;
                     TrackPoint.fix_time L p origin_time
                       (GpxFile.total_seconds original
                        - GpxFile.total_still_time original)) a)
        as [e' | pts2] eqn:Hm; [| discriminate].
      simpl in Hfix. injection Hfix as ->.
      apply map_result_inl in Hm. apply Exists_exists in Hm.
      destruct Hm as (q & Hin & Hq). rewrite Hstart in Hq. cbn [bind] in Hq.
      apply fix_time_error in Hq.
      apply map_result_Forall2 in Ha.
      assert (Hkind' : Forall (fun q => TrackPoint.ndistance q = Fin 0 \/
                                        TrackPoint.ndistance q = NaN) a).
      { eapply Forall2_Forall; [| exact Ha | exact Hkind].
        intros p q' Hpq Hp. simpl in Hpq.
        destruct (add_extensions_fields _ _ _ _ Hpq) as [n ->]. exact Hp. }
      rewrite Forall_forall in Hkind'.
      destruct (Hkind' q Hin) as [Hk | Hk]; rewrite Hk in Hq; tauto.
    + exfalso.
      pose proof (fused_times _ _ _ _ _ _ Hstart Hadd Hfix) as Hall.
      rewrite Ho in Hall, Hlen, Hnan. simpl in Hnan, Hlen.
      destruct rest as [| b l]; [simpl in Hlen; lia |].
      apply Forall_inv in Hnan.
      inversion Hall as [| x y l1 l2 _ Hl E1 E2]. subst.
      inversion Hl as [| x' y' l1' l2' (f & Hfb & _) _ E3 E4]. subst.
      congruence.
Qed.

(** X15 on [Example.paused] as the source and [Example.standstill] as
    the replacement. *)
Lemma coincident_reference_fails_witness :
  (GpxFile.init Ref.libs Example.paused = inr Example.paused_file /\
   GpxFile.init Ref.libs Example.standstill = inr Example.standstill_file /\
   (2 <= List.length (GpxFile.pts Example.standstill_file))%nat /\
   GpxFile.total_distance Example.standstill_file = 0) /\
  exists e, main Ref.libs Example.paused Example.standstill = inl e /\
            (e = ValueError \/ e = AttributeError).
Proof.
  assert (H3 : (2 <= List.length (GpxFile.pts Example.standstill_file))%nat)
    by (simpl; lia).
  assert (H4 : GpxFile.total_distance Example.standstill_file = 0) by reflexivity.
  split; [split; [exact init_paused | split; [exact init_standstill | split; assumption]] |].
  exact (coincident_reference_fails Ref.libs Example.paused Example.standstill _ _
           init_paused init_standstill H3 H4).
Defined.

(** ** The text of the timestamp *)

Lemma first_update_some {A B : Type} (f : A -> option A) (g : A -> option B)
  (Q : B -> Prop) (cs : list A) :
  Forall (fun c => (f c = None -> g c = None) /\
                   forall c', f c = Some c' -> exists e, g c' = Some e /\ Q e) cs ->
  forall cs', first_update f cs = Some cs' ->
              exists e, first_some g cs' = Some e /\ Q e.
Proof.
  induction 1 as [| c cs [Hc1 Hc2] _ IH]; simpl; intros cs' H; [discriminate |].
  destruct (f c) as [c' |] eqn:Ef.
  - injection H as <-. destruct (Hc2 c' eq_refl) as (e & He & HQ).
    exists e. simpl. rewrite He. split; [reflexivity | exact HQ].
  - destruct (first_update f cs) as [l' |]; [| discriminate].
    injection H as <-. destruct (IH l' eq_refl) as (e & He & HQ).
    exists e. simpl. rewrite (Hc1 eq_refl). split; [exact He | exact HQ].
Qed.

Lemma set_string_from_find (nm s : string) (n : node) :
  forall n', set_string_from nm s n = Some n' ->
             exists e, find_from nm n' = Some e /\ string_of e = Some s.
Proof.
  induction n as [s' | nm' a cs IH] using node_induction; simpl; intros n' H;
    [discriminate |].
  destruct (String.eqb nm' nm) eqn:E.
  - injection H as <-. exists (Tag nm' a [NavigableString s]).
    simpl. rewrite E. split; reflexivity.
  - destruct (first_update (set_string_from nm s) cs) as [cs' |] eqn:Eu;
      [| discriminate].
    injection H as <-. simpl. rewrite E.
    apply (first_update_some (set_string_from nm s) (find_from nm) _ cs); [| exact Eu].
    rewrite Forall_forall in IH. apply Forall_forall. intros c Hin. split.
    + apply set_string_from_none.
    + exact (IH c Hin).
Qed.

Lemma set_string_find (nm s : string) (n n' : node) :
  set_string nm s n = inr n' ->
  exists e, find nm n' = Some e /\ string_of e = Some s.
Proof.
  unfold set_string. destruct n as [nm' a cs |]; [| discriminate].
  destruct (first_update (set_string_from nm s) cs) as [cs' |] eqn:Eu; [| discriminate].
  intros H. injection H as <-. unfold find. simpl.
  apply (first_update_some (set_string_from nm s) (find_from nm) _ cs); [| exact Eu].
  apply Forall_forall. intros c _. split.
  - apply set_string_from_none.
  - apply set_string_from_find.
Qed.

(** X16.  When [fix_time] returns, the point's position fraction was a
    finite number, the point has the new timestamp, and the first
    [time] element of its point element holds, as its only string, the
    text of that timestamp: date and time to the second, a point, the
    first three digits of the microseconds, and [Z]. *)
Theorem time_text_written (L : PyLibs) (p p' : TrackPoint.t) (start : Z) (eff : R) :
  TrackPoint.fix_time L p start eff = inr p' ->
  exists f e,
    TrackPoint.ndistance p = Fin f /\
    TrackPoint.time p' = (start + rint (eff * f * 1000000))%Z /\
    find "time" (TrackPoint.pt p') = Some e /\
    string_of e =
      Some (strftime L (TrackPoint.time p') "%Y-%m-%dT%H:%M:%S" ++ "."
            ++ substring 0 3 (strftime L (TrackPoint.time p') "%f") ++ "Z")%string /\
    TrackPoint.lat p' = TrackPoint.lat p /\ TrackPoint.lon p' = TrackPoint.lon p /\
    TrackPoint.ele p' = TrackPoint.ele p.
Proof.
  intros H. destruct (fix_time_time _ _ _ _ _ H) as (f & Hf & Ht).
  rewrite (fix_time_finite _ _ _ _ _ _ Hf eq_refl) in H.
  inv_bind H. injection H as <-.
  destruct (set_string_find _ _ _ _ Ha) as (e & He & Hs).
  exists f, e. simpl. repeat split; try assumption.
Qed.

Lemma stamped_fix_time :
  TrackPoint.fix_time Ref.libs Example.synthesized_point Example.t0 10
  = inr Example.stamped_point.
Proof.
  unfold Example.synthesized_point.
  run_fix_time 0%Z.
  reflexivity.
Qed.

(** X16 on the point of [Example.single] after synthesis. *)
Lemma time_text_written_witness :
  TrackPoint.fix_time Ref.libs Example.synthesized_point Example.t0 10
  = inr Example.stamped_point /\
  exists f e,
    TrackPoint.ndistance Example.synthesized_point = Fin f /\
    TrackPoint.time Example.stamped_point = (Example.t0 + rint (10 * f * 1000000))%Z /\
    find "time" (TrackPoint.pt Example.stamped_point) = Some e /\
    string_of e =
      Some (strftime Ref.libs (TrackPoint.time Example.stamped_point)
              "%Y-%m-%dT%H:%M:%S" ++ "."
            ++ substring 0 3 (strftime Ref.libs (TrackPoint.time Example.stamped_point)
                                "%f") ++ "Z")%string /\
    TrackPoint.lat Example.stamped_point = TrackPoint.lat Example.synthesized_point /\
    TrackPoint.lon Example.stamped_point = TrackPoint.lon Example.synthesized_point /\
    TrackPoint.ele Example.stamped_point = TrackPoint.ele Example.synthesized_point.
Proof.
  split; [exact stamped_fix_time |].
  exact (time_text_written Ref.libs Example.synthesized_point Example.stamped_point
           Example.t0 10 stamped_fix_time).
Defined.

(** ** A malformed point element *)

Lemma map_result_first_error {A B : Type} (f : A -> result B) (l1 l2 : list A) (c : A)
  (e : exn) :
  Forall (fun a => exists b, f a = inr b) l1 -> f c = inl e ->
  map_result f (l1 ++ c :: l2) = inl e.
Proof.
  intros H Hc. induction H as [| a l1 [b Hb] _ IH]; simpl.
  - rewrite Hc. reflexivity.
  - rewrite Hb. simpl. fold (map_result f). rewrite IH. reflexivity.
Qed.

Lemma Forall2_Forall_l {A B : Type} (P : A -> B -> Prop) (l : list A) (l' : list B) :
  Forall2 P l l' -> Forall (fun a => exists b, P a b) l.
Proof. induction 1; constructor; eauto. Qed.

(** X17.  When the construction of a point fails on an element of the
    track segment, and the elements before it are well-formed, the
    construction of the track raises that error, and so does [main],
    whether the track is the source or the replacement. *)
Theorem malformed_point (L : PyLibs) (children l1 l2 : list node) (c : node) (e : exn) :
  tags children = l1 ++ c :: l2 ->
  Forall (fun c' => exists p, TrackPoint.init L c' = inr p) l1 ->
  TrackPoint.init L c = inl e ->
  GpxFile.init L children = inl e /\
  (forall replace, main L children replace = inl e) /\
  (forall gpx original, GpxFile.init L gpx = inr original ->
                        main L gpx children = inl e).
Proof.
  intros Htags Hl1 Hc.
  assert (Hinit : GpxFile.init L children = inl e).
  { unfold GpxFile.init. rewrite Htags.
    rewrite (map_result_first_error _ _ _ _ _ Hl1 Hc). reflexivity. }
  split; [exact Hinit |]. split.
  - intros replace. unfold main. rewrite Hinit. reflexivity.
  - intros gpx original Hgpx. unfold main. rewrite Hgpx. cbn [bind].
    rewrite Hinit. reflexivity.
Qed.

(** X17 on [Example.malformed], whose last point element has no
    attributes and raises [KeyError]. *)
Lemma malformed_point_witness :
  (tags Example.malformed = Example.paused ++ Tag "trkpt" [] [] :: [] /\
   Forall (fun c' => exists p, TrackPoint.init Ref.libs c' = inr p) Example.paused /\
   TrackPoint.init Ref.libs (Tag "trkpt" [] []) = inl KeyError) /\
  GpxFile.init Ref.libs Example.malformed = inl KeyError /\
  (forall replace, main Ref.libs Example.malformed replace = inl KeyError) /\
  (forall gpx original,
      GpxFile.init Ref.libs gpx = inr original ->
      main Ref.libs gpx Example.malformed = inl KeyError).
Proof.
  assert (H1 : tags Example.malformed = Example.paused ++ Tag "trkpt" [] [] :: [])
    by reflexivity.
  assert (H2 : Forall (fun c' => exists p, TrackPoint.init Ref.libs c' = inr p)
                 Example.paused).
  { pose proof paused_parse as H. apply map_result_Forall2 in H.
    exact (Forall2_Forall_l _ _ _ H). }
  assert (H3 : TrackPoint.init Ref.libs (Tag "trkpt" [] []) = inl KeyError)
    by reflexivity.
  split; [split; [exact H1 | split; [exact H2 | exact H3]] |].
  exact (malformed_point Ref.libs Example.malformed Example.paused [] (Tag "trkpt" [] [])
           KeyError H1 H2 H3).
Defined.

(** ** Accumulated distances *)

Lemma linked_accumulated_nth (td : R) (l : list TrackPoint.t) :
  forall a,
    linked (accumulated td) a l ->
    forall k p,
      nth_error l k = Some p ->
      TrackPoint.accumulated_distance p
      = TrackPoint.accumulated_distance a
        + sum (map TrackPoint.distance (firstn (S k) l)).
Proof.
  induction l as [| b l IH]; intros a H k p Hk.
  - destruct k; discriminate.
  - destruct H as [[Hb _] Hl]. destruct k as [| k].
    + simpl in Hk. injection Hk as <-. simpl firstn. simpl map.
      rewrite sum_cons, sum_nil, Hb. lra.
    + simpl in Hk. rewrite (IH b Hl k p Hk), Hb.
      change (firstn (S (S k)) (b :: l)) with (b :: firstn (S k) l).
      simpl map. rewrite sum_cons. lra.
Qed.

(** X18.  In a constructed track the total distance is the sum of the
    distances of the points, and the accumulated distance of each point
    is the sum of the distances of the points up to it. *)
Theorem accumulated_prefix_sums (L : PyLibs) (children : list node) (g : GpxFile.t) :
  GpxFile.init L children = inr g ->
  GpxFile.total_distance g = sum (map TrackPoint.distance (GpxFile.pts g)) /\
  forall k p,
    nth_error (GpxFile.pts g) k = Some p ->
    TrackPoint.accumulated_distance p
    = sum (map TrackPoint.distance (firstn (S k) (GpxFile.pts g))).
Proof.
  intros Hinit.
  destruct (init_normal _ _ _ Hinit)
    as ((origin & out & Hpts & Hf & _ & Hacc & _ & Htd & _) & _).
  destruct Hf as (_ & _ & Hd & Ha & _).
  rewrite Hpts. split.
  - simpl map. rewrite sum_cons, Hd, Htd. lra.
  - intros k p Hk. destruct k as [| k].
    + simpl in Hk. injection Hk as <-. simpl firstn. simpl map.
      rewrite sum_cons, sum_nil, Hd, Ha. lra.
    + simpl in Hk. rewrite (linked_accumulated_nth _ _ _ Hacc k p Hk), Ha.
      change (firstn (S (S k)) (origin :: out)) with (origin :: firstn (S k) out).
      simpl map. rewrite sum_cons, Hd. lra.
Qed.

(** X18 on [Example.reference]. *)
Lemma accumulated_prefix_sums_witness :
  GpxFile.init Ref.libs Example.reference = inr Example.reference_file /\
  GpxFile.total_distance Example.reference_file
  = sum (map TrackPoint.distance (GpxFile.pts Example.reference_file)) /\
  forall k p,
    nth_error (GpxFile.pts Example.reference_file) k = Some p ->
    TrackPoint.accumulated_distance p
    = sum (map TrackPoint.distance (firstn (S k) (GpxFile.pts Example.reference_file))).
Proof.
  split; [exact init_reference |].
  exact (accumulated_prefix_sums Ref.libs Example.reference Example.reference_file
           init_reference).
Defined.

(** ** A source that never moves *)






